(** * GistPad editor commands: selecting a Gist target and pasting a Gist file

    A shallow embedding of [src/commands/editor.ts].  The configuration reader
    it imports ([../config]) is not among the sources and is modelled from the
    spec; the [get] of [src/config/config.ts] belongs to another module.

    The two commands are event-driven code over the host editor's API.  Every
    call that leaves the module (showing a list, asking for text, starting a
    write, a read, a create request, a log line) is recorded as an [Event], in
    program order; what the user answers to a prompt is an input of the model.
    Exceptions keep the events emitted before them. *)

From Stdlib Require Import Strings.Ascii Strings.String Lists.List Bool.Bool Strings.Byte.
From stdpp Require Import base option strings gmap list.
Import ListNotations.

Local Open Scope string_scope.
Local Open Scope list_scope.

(** ** Data owned by the store *)

(** Modelled from the spec: the declaration of [GistFile] lives in the store
    module, which is not part of the sources at hand.  The commands read the
    two fields [filename] and [content] (both forced with [!] at every use
    below), which the spec calls a CandidateFile. *)
Record GistFile := mkGistFile {
  filename : string;
  content : string
}.

(** Modelled from the spec: the declaration of [Gist] lives in the store module.
    The commands read [id] and [files]; [files] is an object keyed by file
    name, kept here as the sequence of its own entries in the order
    [Object.keys] enumerates them.  The remaining fields are what the label
    and description helpers look at. *)
Record Gist := mkGist {
  gist_id : string;
  gist_files : list (string * GistFile);
  gist_public : bool;
  gist_description : option string
}.

Definition Object_keys {A : Type} (o : list (string * A)) : list string :=
  map fst o.

(** ** Quick-pick items *)

(** [GistQuickPickItem] (a [QuickPickItem] with an optional [id]); the two
    create-new entries carry [alwaysShow] and neither [description] nor [id]. *)
Record GistQuickPickItem := mkItem {
  label : string;
  description : option string;
  id : option string;
  alwaysShow : option bool
}.

(** The items of the paste command: [{ label, description, id, files }]. *)
Record PasteItem := mkPasteItem {
  p_label : string;
  p_description : string;
  p_id : string;
  p_files : list string
}.

Definition CREATE_PUBLIC_GIST_ITEM : string := "$(gist-new) Create new public Gist...".
Definition CREATE_SECRET_GIST_ITEM : string := "$(gist-private) Create new secret Gist...".

Definition CREATE_GIST_ITEMS : list GistQuickPickItem :=
  [ mkItem CREATE_PUBLIC_GIST_ITEM None None (Some true);
    mkItem CREATE_SECRET_GIST_ITEM None None (Some true) ].

(** [Array.prototype.unshift(...items)]: the new elements go in front, in the
    order they are given. *)
Definition unshift {A : Type} (arr items : list A) : list A := items ++ arr.

(** JavaScript truthiness of an optional string, as the narrowing an [if]
    performs: [undefined] and the empty string are falsy ([None]); any other
    string is truthy and is handed to the guarded branch. *)
Definition truthy (s : option string) : option string :=
  match s with
  | None => None
  | Some s => if String.eqb s "" then None else Some s
  end.

(** What the user does with the list opened by [createQuickPick]: closes it, or
    accepts with the given [selectedItems]. *)
Inductive QuickPickAnswer :=
| Dismissed
| Accepted (selectedItems : list GistQuickPickItem).

(** ** The configuration reader *)

(** Arrays are mutable objects: a value of array type is a reference into a
    store of arrays, so that [push] through one reference is seen through every
    other. *)
Definition loc := positive.

(** Modelled from the spec: [config.get] is called on the module [../config],
    which is not among the sources (the [get] of [src/config/config.ts] is a
    different module's, and its overloads do not take this key).  The spec
    gives [config.get("languageMappings") -> LanguageExtensionMap], a mapping
    from editor language id to an ordered sequence of allowed extensions,
    externally configured.  The configuration is kept as the map it holds
    under each key; a sequence of extensions is an array, hence a reference. *)
Definition config_get (extensionConfig : string -> gmap string loc) (key : string)
  : gmap string loc :=
  extensionConfig key.

(** What [languageMap[key] || null] can be: [undefined], [null], a reference to
    an array, or a member every object inherits (a function, or the prototype
    itself for [__proto__]). *)
Inductive Value :=
| VUndefined
| VNull
| VArray (l : loc)
| VMember (name : string).

(** The string-keyed members of [Object.prototype]. *)
Definition Object_prototype_members : list string :=
  [ "constructor"; "__defineGetter__"; "__defineSetter__"; "hasOwnProperty";
    "__lookupGetter__"; "__lookupSetter__"; "isPrototypeOf";
    "propertyIsEnumerable"; "toString"; "valueOf"; "__proto__";
    "toLocaleString" ].

(** [object[key]] on the language map: an own entry first, then what the
    object inherits, else [undefined]. *)
Definition get_property (object : gmap string loc) (key : string) : Value :=
  match object !! key with
  | Some l => VArray l
  | None =>
      if existsb (String.eqb key) Object_prototype_members
      then VMember key
      else VUndefined
  end.

(** [v || null]: [undefined] and [null] are falsy, objects and functions are
    truthy. *)
Definition or_null (v : Value) : Value :=
  match v with
  | VUndefined | VNull => VNull
  | VArray l => VArray l
  | VMember name => VMember name
  end.

(** An inherited member inside a template literal: the text of a built-in
    function, or of the prototype object. *)
Definition member_text (name : string) : string :=
  if String.eqb name "__proto__" then "[object Object]"
  else if String.eqb name "constructor" then "function Object() { [native code] }"
  else "function " +:+ name +:+ "() { [native code] }".

(** ** Outcomes and errors *)

Inductive Error :=
| TypeError (msg : string)
| Rejected (msg : string).

Inductive Outcome (A : Type) :=
| Done (a : A)
| Throw (e : Error).
Arguments Done {A} a.
Arguments Throw {A} e.

(** ** Sample data

    A configuration mapping ["python"] to the array [[".py"]], a few Gists and
    files, and plain stand-ins for the helpers of [../utils]; the closed
    examples below are stated on them. *)

Definition python_arrays : gmap loc (list string) := {[ 1%positive := [".py"] ]}.

Definition python_config (key : string) : gmap string loc :=
  if String.eqb key "languageMappings" then {[ "python" := 1%positive ]} else ∅.

Definition notes_py_gist : Gist :=
  mkGist "a1" [("notes.py_", mkGistFile "notes.py_" "%time")] true None.

Definition notes_txt_gist : Gist :=
  mkGist "b2" [("notes.txt", mkGistFile "notes.txt" "hello")] false None.

Definition two_file_gist : Gist :=
  mkGist "c3" [("a.md", mkGistFile "a.md" "A"); ("b.md", mkGistFile "b.md" "B")]
         true (Some "two files").


Definition empty_id_gist : Gist :=
  mkGist "" [("x.txt", mkGistFile "x.txt" "x")] true None.

Definition sample_files : list GistFile :=
  [mkGistFile "one.txt" "1"; mkGistFile "two.txt" "2"].

Definition sample_label (gist : Gist) : string := gist_id gist.

Definition sample_description (gist : Gist) : string :=
  default "" (gist_description gist).

Definition sample_uri (gistId file : string) : string * string := (gistId, file).

Definition sample_decode (name : string) : string := name.

(** The text from the last dot on, or the empty string without a dot. *)
Fixpoint sample_extension (name : string) : string :=
  match name with
  | EmptyString => EmptyString
  | String c rest =>
      match sample_extension rest with
      | EmptyString =>
          if Ascii.eqb c "."%char then String c rest else EmptyString
      | ext => ext
      end
  end.

Definition sample_fs (uri : string * string) : option (list byte) :=
  Some (list_byte_of_string (snd uri)).

Definition sample_path (uri : string * string) : string := snd uri.

(** The text after the last slash. *)
Fixpoint sample_basename (path : string) : string :=
  match path with
  | EmptyString => EmptyString
  | String c rest =>
      if existsb (Ascii.eqb "/"%char) (list_ascii_of_string rest)
      then sample_basename rest
      else if Ascii.eqb c "/"%char then rest else String c rest
  end.

(** A file system in which every file but ["gone.txt"] exists. *)
Definition sample_fs_missing (uri : string * string) : option (list byte) :=
  if String.eqb (snd uri) "gone.txt" then None
  else Some (list_byte_of_string (snd uri)).

Section Commands.

(** Helpers of [../utils] and the host's URI type, which the commands only
    pass values through. *)
Context {Uri : Type}.
Variable getGistLabel : Gist -> string.
Variable getGistDescription : Gist -> string.
Variable fileNameToUri : string -> string -> Uri.
Variable stringToByteArray : string -> list byte.
Variable byteArrayToString : list byte -> string.
Variable decodeDirectoryName : string -> string.
Variable getFileExtension : string -> string.

(** Calls that leave the module, as they are issued. *)
Inductive Event :=
| EListShow (placeholder : string) (items : list GistQuickPickItem)
| EListHide
| EInputBox (prompt : string)
| EProgress (title : string)
| ENewGist (files : list GistFile) (isPublic : bool)
           (description : option string) (isNotebook : bool)
| EWriteFile (uri : Uri) (bytes : list byte)
| EOutput (line : string)
| EShowQuickPickGists (items : list PasteItem) (placeHolder : string)
| EShowQuickPickFiles (items : list string) (placeHolder : string)
| EReadFile (uri : Uri)
| EInsert (contents : string).

(** A computation: the events it issued and how it ended. *)
Definition M (A : Type) : Type := list Event * Outcome A.

#[local] Instance M_ret : MRet M := fun A a => ([], Done a).
#[local] Instance M_bind : MBind M := fun A B f m =>
  match m with
  | (t, Done a) => let '(t', o) := f a in (t ++ t', o)
  | (t, Throw e) => (t, Throw e)
  end.

Definition emit (e : Event) : M unit := ([e], Done tt).
Definition throw {A : Type} (e : Error) : M A := ([], Throw e).

Definition trace {A : Type} (m : M A) : list Event := fst m.
Definition outcome {A : Type} (m : M A) : Outcome A := snd m.

(** [Promise.all(xs.map(f))]: every task is started, in order. *)
Fixpoint Promise_all (tasks : list (M unit)) : M unit :=
  match tasks with
  | [] => mret tt
  | task :: rest => task;; Promise_all rest
  end.

(** [window.withProgress(options, task)] shows the notification and runs the
    task once. *)
Definition withProgress (title : string) (task : M unit) : M unit :=
  emit (EProgress title);; task.

Definition writeFile (uri : Uri) (bytes : list byte) : M unit :=
  emit (EWriteFile uri bytes).

Definition newGist (files : list GistFile) (isPublic : bool)
    (description : option string) (isNotebook : bool) : M unit :=
  emit (ENewGist files isPublic description isNotebook).

(** ** [newGistWithFiles]
    [answer] is what the input box resolves to: the text entered, or
    [undefined] when the box is dismissed. *)
Definition newGistWithFiles (isPublic : bool) (files : list GistFile)
    (answer : option string) : M unit :=
  emit (EInputBox "Enter an optional description for the new Gist");;
  let description := answer in
  withProgress "Creating Gist..." (newGist files isPublic description false).

(** ** [promptForGistSelection] *)

Definition gistToItem (gist : Gist) : GistQuickPickItem :=
  {| label := getGistLabel gist;
     description := Some (getGistDescription gist);
     id := Some (gist_id gist);
     alwaysShow := None |}.

(** The handler registered with [list.onDidAccept]. *)
Definition onDidAccept (files : list GistFile)
    (selectedItems : list GistQuickPickItem) (answer : option string) : M unit :=
  let gist := head selectedItems in
  emit EListHide;;
  match gist with
  | None => throw (TypeError "Cannot read properties of undefined (reading 'id')")
  | Some gist =>
      match truthy (id gist) with
      | Some target =>
          withProgress "Adding file(s)..."
            (Promise_all
               (map (fun file =>
                       writeFile
                         (fileNameToUri target (filename file))
                         (stringToByteArray (content file)))
                    files))
      | None =>
          let isPublic := String.eqb (label gist) CREATE_PUBLIC_GIST_ITEM in
          newGistWithFiles isPublic files answer
      end
  end.

Definition promptForGistSelection (store_gists : list Gist)
    (files : list GistFile) (user : QuickPickAnswer) (answer : option string)
  : M unit :=
  let gistItems := map gistToItem store_gists in
  let gistItems := unshift gistItems CREATE_GIST_ITEMS in
  emit (EListShow "Specify the gist you'd like to add the file(s) to" gistItems);;
  match user with
  | Dismissed => mret tt
  | Accepted selectedItems => onDidAccept files selectedItems answer
  end.

(** ** The [pasteGistFile] command *)

Definition toPasteItem (gist : Gist) : PasteItem :=
  {| p_label := getGistLabel gist;
     p_description := getGistDescription gist;
     p_id := gist_id gist;
     p_files := Object_keys (gist_files gist) |}.

(** [arr.includes(x)] on strings. *)
Definition includes (arr : list string) (x : string) : bool :=
  existsb (String.eqb x) arr.

(** [config.get("languageMappings")[detectedLanguage] || null]. *)
Definition allowedExtensionsFor (extensionConfig : string -> gmap string loc)
    (detectedLanguage : string) : Value :=
  or_null (get_property (config_get extensionConfig "languageMappings")
                        detectedLanguage).

(** The template literal [`${allowedExtensions}`]. *)
Definition show_allowed (arrays : gmap loc (list string))
    (allowedExtensions : Value) : string :=
  match allowedExtensions with
  | VUndefined => "undefined"
  | VNull => "null"
  | VArray l => String.concat "," (arrays !!! l)
  | VMember name => member_text name
  end.

(** [allowedExtensions.push(...allowedExtensions.map(e => `${e}_`))] under the
    guard [allowedExtensions !== null]: the array behind the reference grows in
    place. *)
Definition push_underscored (arrays : gmap loc (list string))
    (allowedExtensions : option loc) : gmap loc (list string) :=
  match allowedExtensions with
  | None => arrays
  | Some l =>
      let arr := arrays !!! l in
      <[l := arr ++ map (fun fileExtension => fileExtension +:+ "_") arr]> arrays
  end.

(** The predicate handed to [gistItems.filter]. *)
Definition passesFilter (arrays : gmap loc (list string))
    (allowedExtensions : option loc) (gist : PasteItem) : bool :=
  match allowedExtensions with
  | None => true
  | Some l =>
      existsb (fun file => includes (arrays !!! l) (getFileExtension file))
              (p_files gist)
  end.

(** The statement [if (allowedExtensions !== null) { allowedExtensions.push(...) }]:
    the arrays it leaves and the allow-list narrowed to [null] or an array, or
    the type error of calling [map] (evaluated first, as the argument of
    [push]) on a value that has none. *)
Definition augment (arrays : gmap loc (list string)) (allowedExtensions : Value)
  : Outcome (gmap loc (list string) * option loc) :=
  match allowedExtensions with
  | VNull => Done (push_underscored arrays None, None)
  | VArray l => Done (push_underscored arrays (Some l), Some l)
  | VMember _ => Throw (TypeError "allowedExtensions.map is not a function")
  | VUndefined =>
      Throw (TypeError "Cannot read properties of undefined (reading 'push')")
  end.

(** The filtering step of the command, from the lookup of the allow-list to
    [gistItemsFiltered], with the store of arrays it leaves behind. *)
Definition filterByLanguage (arrays : gmap loc (list string))
    (extensionConfig : string -> gmap string loc) (detectedLanguage : string)
    (gistItems : list PasteItem)
  : Outcome (gmap loc (list string) * list PasteItem) :=
  let allowedExtensions := allowedExtensionsFor extensionConfig detectedLanguage in
  match augment arrays allowedExtensions with
  | Throw e => Throw e
  | Done (arrays', allowed) =>
      Done (arrays', List.filter (passesFilter arrays' allowed) gistItems)
  end.

(** The tail of the command: read the chosen file and insert its text.  [fs]
    is the virtual file system; a missing file rejects the read. *)
Definition readAndInsert (fs : Uri -> option (list byte)) (gist : Gist)
    (selectedFile : string) : M unit :=
  let uri := fileNameToUri (gist_id gist) selectedFile in
  emit (EReadFile uri);;
  match fs uri with
  | None => throw (Rejected "readFile")
  | Some bytes => emit (EInsert (byteArrayToString bytes))
  end.

(** The command from the answer of the first [showQuickPick] on.  [pickGist]
    and [pickFile] are what the two [showQuickPick] calls resolve to ([None]
    for a dismissed list).  [fileItems.length === 1] with [fileItems[0]] is the
    one-element pattern. *)
Definition pasteSelected (gists : list Gist) (pickGist : option PasteItem)
    (pickFile : option string) (fs : Uri -> option (list byte)) : M unit :=
  match pickGist with
  | None => mret tt
  | Some selectedGist =>
      match List.find (fun gist => String.eqb (gist_id gist) (p_id selectedGist)) gists with
      | None => throw (TypeError "Cannot read properties of undefined (reading 'files')")
      | Some gist =>
          let fileItems := map decodeDirectoryName (Object_keys (gist_files gist)) in
          match fileItems with
          | [only] => readAndInsert fs gist only
          | _ =>
              emit (EShowQuickPickFiles fileItems "Select the file to paste from");;
              match truthy pickFile with
              | None => mret tt
              | Some selectedFile => readAndInsert fs gist selectedFile
              end
          end
      end
  end.

(** The command body after [ensureAuthenticated] has resolved, with the store
    of arrays it leaves behind. *)
Definition pasteGistFile (arrays : gmap loc (list string))
    (extensionConfig : string -> gmap string loc) (store_gists : list Gist)
    (detectedLanguage : string) (pickGist : option PasteItem)
    (pickFile : option string) (fs : Uri -> option (list byte))
  : gmap loc (list string) * M unit :=
  let gists := store_gists in
  let gistItems := map toPasteItem store_gists in
  let allowedExtensions := allowedExtensionsFor extensionConfig detectedLanguage in
  let logged : M unit :=
    emit (EOutput ("Detected language: " +:+ detectedLanguage));;
    emit (EOutput ("Allowed file extensions: "
                   +:+ show_allowed arrays allowedExtensions)) in
  match filterByLanguage arrays extensionConfig detectedLanguage gistItems with
  | Throw e => (arrays, logged;; throw e)
  | Done (arrays', gistItemsFiltered) =>
      (arrays',
       logged;;
       emit (EShowQuickPickGists gistItemsFiltered
               "Select the Gist you'd like to paste a file from");;
       pasteSelected gists pickGist pickFile fs)
  end.

(** ** Observing a trace *)

Definition as_write (e : Event) : option (Uri * list byte) :=
  match e with EWriteFile uri bytes => Some (uri, bytes) | _ => None end.

Definition as_create (e : Event)
  : option (list GistFile * bool * option string * bool) :=
  match e with
  | ENewGist files isPublic description isNotebook =>
      Some (files, isPublic, description, isNotebook)
  | _ => None
  end.

Definition as_read (e : Event) : option Uri :=
  match e with EReadFile uri => Some uri | _ => None end.

Definition as_file_prompt (e : Event) : option (list string) :=
  match e with EShowQuickPickFiles items _ => Some items | _ => None end.

Definition as_gist_prompt (e : Event) : option (list PasteItem) :=
  match e with EShowQuickPickGists items _ => Some items | _ => None end.

(** The events of one kind in a trace, in order. *)
Fixpoint collect {A : Type} (kind : Event -> option A) (t : list Event) : list A :=
  match t with
  | [] => []
  | e :: t' =>
      match kind e with
      | Some a => a :: collect kind t'
      | None => collect kind t'
      end
  end.

Definition writes (t : list Event) := collect as_write t.
Definition creates (t : list Event) := collect as_create t.
Definition reads (t : list Event) := collect as_read t.
Definition file_prompts (t : list Event) := collect as_file_prompt t.
Definition gist_prompts (t : list Event) := collect as_gist_prompt t.

(** The run got as far as showing the list of Gists. *)
Definition gist_list_shown (run : M unit) : Prop := gist_prompts (trace run) <> [].

(** ** The [addSelectionToGist] and [addFileToGist] commands *)

(** [uri.path] of the host and [path.basename] of Node, which [addFileToGist]
    composes to name a file picked by URI. *)
Variable uri_path : Uri -> string.
Variable basename : string -> string.

(** [askForFileName]: [nameAnswer] is what the input box resolves to. *)
Definition askForFileName (nameAnswer : option string) : M (option string) :=
  emit (EInputBox "Enter a name to give to this file");;
  mret nameAnswer.

(** [addSelectionToGist], after [ensureAuthenticated] has resolved;
    [selectionText] is [editor.document.getText(editor.selection)]. *)
Definition addSelectionToGist (store_gists : list Gist)
    (nameAnswer : option string) (selectionText : string)
    (user : QuickPickAnswer) (answer : option string) : M unit :=
  filename ← askForFileName nameAnswer;
  match truthy filename with
  | None => mret tt
  | Some filename =>
      let content := selectionText in
      promptForGistSelection store_gists [mkGistFile filename content] user answer
  end.

(** What [addFileToGist] is called on: a file node of the Gists tree, a URI
    (explorer or editor tab), or the notebook toolbar's wrapper of a URI. *)
Inductive Node :=
| GistFileNode (gistId : string) (file : GistFile)
| UriNode (uri : Uri)
| NotebookNode (notebookUri : Uri).

(** The second argument of [addFileToGist]: [undefined], the editor-tab context
    object (which has an [editorIndex] key), or the multi-selected nodes. *)
Inductive MultiSelection :=
| NoMultiSelect
| EditorContext
| MultiSelect (nodes : list Node).

(** [await workspace.fs.readFile(uri)]. *)
Definition readFile (fs : Uri -> option (list byte)) (uri : Uri) : M (list byte) :=
  emit (EReadFile uri);;
  match fs uri with
  | None => throw (Rejected "readFile")
  | Some bytes => mret bytes
  end.

(** One turn of the loop over [nodes]: the file pushed for [node]. *)
Definition nodeToFile (fs : Uri -> option (list byte)) (node : Node) : M GistFile :=
  match node with
  | GistFileNode gistId file =>
      bytes ← readFile fs (fileNameToUri gistId (filename file));
      mret {| filename := filename file; content := byteArrayToString bytes |}
  | UriNode uri =>
      bytes ← readFile fs uri;
      mret {| filename := basename (uri_path uri);
              content := byteArrayToString bytes |}
  | NotebookNode notebookUri =>
      let uri := notebookUri in
      bytes ← readFile fs uri;
      mret {| filename := basename (uri_path uri);
              content := byteArrayToString bytes |}
  end.

(** [for (const node of nodes) { ... files.push(...) }], from the files pushed
    so far. *)
Fixpoint readNodes (fs : Uri -> option (list byte)) (nodes : list Node)
    (files : list GistFile) : M (list GistFile) :=
  match nodes with
  | [] => mret files
  | node :: rest =>
      file ← nodeToFile fs node;
      readNodes fs rest (files ++ [file])
  end.

(** [multiSelectNodes && !("editorIndex" in multiSelectNodes)
      ? multiSelectNodes : [targetNode]]; an array is truthy even when empty. *)
Definition selectNodes (targetNode : Node) (multiSelectNodes : MultiSelection)
  : list Node :=
  match multiSelectNodes with
  | MultiSelect nodes => nodes
  | NoMultiSelect | EditorContext => [targetNode]
  end.

(** [addFileToGist], after [ensureAuthenticated] has resolved. *)
Definition addFileToGist (store_gists : list Gist) (targetNode : Node)
    (multiSelectNodes : MultiSelection) (fs : Uri -> option (list byte))
    (user : QuickPickAnswer) (answer : option string) : M unit :=
  let nodes := selectNodes targetNode multiSelectNodes in
  files ← readNodes fs nodes [];
  promptForGistSelection store_gists files user answer.

(** The URI a node is read from and the file name it is stored under. *)
Definition nodeUri (node : Node) : Uri :=
  match node with
  | GistFileNode gistId file => fileNameToUri gistId (filename file)
  | UriNode uri => uri
  | NotebookNode notebookUri => notebookUri
  end.

Definition nodeName (node : Node) : string :=
  match node with
  | GistFileNode _ file => filename file
  | UriNode uri => basename (uri_path uri)
  | NotebookNode notebookUri => basename (uri_path notebookUri)
  end.

(** Further observations of a trace. *)
Definition as_insert (e : Event) : option string :=
  match e with EInsert contents => Some contents | _ => None end.

Definition as_list_show (e : Event) : option (list GistQuickPickItem) :=
  match e with EListShow _ items => Some items | _ => None end.

Definition as_progress (e : Event) : option string :=
  match e with EProgress title => Some title | _ => None end.

Definition as_input_box (e : Event) : option string :=
  match e with EInputBox prompt => Some prompt | _ => None end.

Definition inserts (t : list Event) := collect as_insert t.
Definition list_shows (t : list Event) := collect as_list_show t.
Definition progresses (t : list Event) := collect as_progress t.
Definition input_boxes (t : list Event) := collect as_input_box t.

(** ** Properties of [promptForGistSelection] *)

Lemma collect_app {A : Type} (kind : Event -> option A) (t1 t2 : list Event) :
  collect kind (t1 ++ t2) = collect kind t1 ++ collect kind t2.
Proof.
  induction t1 as [|e t1 IH]; [reflexivity|].
  cbn. destruct (kind e); cbn; rewrite IH; reflexivity.
Qed.

(** Starting one write per file issues exactly those writes and cannot fail. *)
Lemma Promise_all_writeFile (target : string) (files : list GistFile) :
  Promise_all
    (map (fun file => writeFile (fileNameToUri target (filename file))
                                (stringToByteArray (content file))) files)
  = (map (fun file => EWriteFile (fileNameToUri target (filename file))
                                 (stringToByteArray (content file))) files,
     Done tt).
Proof.
  induction files as [|file files IH]; [reflexivity|].
  cbn [map Promise_all]. rewrite IH. reflexivity.
Qed.

Lemma writes_of_write_events (target : string) (files : list GistFile) :
  writes (map (fun file => EWriteFile (fileNameToUri target (filename file))
                                      (stringToByteArray (content file))) files)
  = map (fun file => (fileNameToUri target (filename file),
                      stringToByteArray (content file))) files.
Proof.
  induction files as [|file files IH]; [reflexivity|].
  cbn. f_equal. exact IH.
Qed.

Lemma creates_of_write_events (target : string) (files : list GistFile) :
  creates (map (fun file => EWriteFile (fileNameToUri target (filename file))
                                       (stringToByteArray (content file))) files)
  = [].
Proof. induction files as [|file files IH]; [reflexivity|]. cbn. exact IH. Qed.

(** The handler on an item with a truthy [id]: the append path. *)
Lemma onDidAccept_append files item rest answer target :
  truthy (id item) = Some target ->
  onDidAccept files (item :: rest) answer
  = (EListHide :: EProgress "Adding file(s)..."
       :: map (fun file => EWriteFile (fileNameToUri target (filename file))
                                      (stringToByteArray (content file))) files,
     Done tt).
Proof.
  intros Hid. unfold onDidAccept, withProgress. cbn [head]. rewrite Hid.
  rewrite Promise_all_writeFile. reflexivity.
Qed.

(** The handler on an item with a falsy [id]: the create path. *)
Lemma onDidAccept_create files item rest answer :
  truthy (id item) = None ->
  onDidAccept files (item :: rest) answer
  = ([EListHide;
      EInputBox "Enter an optional description for the new Gist";
      EProgress "Creating Gist...";
      ENewGist files (String.eqb (label item) CREATE_PUBLIC_GIST_ITEM) answer false],
     Done tt).
Proof.
  intros Hid. unfold onDidAccept. cbn [head]. rewrite Hid. reflexivity.
Qed.

Lemma promptForGistSelection_accept store_gists files selectedItems answer :
  promptForGistSelection store_gists files (Accepted selectedItems) answer
  = (EListShow "Specify the gist you'd like to add the file(s) to"
       (unshift (map gistToItem store_gists) CREATE_GIST_ITEMS)
       :: trace (onDidAccept files selectedItems answer),
     outcome (onDidAccept files selectedItems answer)).
Proof.
  unfold promptForGistSelection.
  destruct (onDidAccept files selectedItems answer) as [t [[]|e]]; reflexivity.
Qed.

Lemma truthy_Some (s : string) : s <> "" -> truthy (Some s) = Some s.
Proof.
  intros Hs. unfold truthy. destruct (String.eqb_spec s ""); [contradiction|reflexivity].
Qed.

(** C1 (amended): when the accepted item carries a non-empty [id], the writes
    dispatched are exactly one per candidate file, in batch order, each
    addressed by [fileNameToUri id file.filename] with the bytes of that file's
    content; their number is the size of the batch, and no create request is
    issued. *)
Theorem promptForGistSelection_existing_gist_writes
    store_gists files item rest answer target :
  id item = Some target ->
  target <> "" ->
  let t := trace (promptForGistSelection store_gists files
                    (Accepted (item :: rest)) answer) in
  writes t = map (fun file => (fileNameToUri target (filename file),
                               stringToByteArray (content file))) files
  /\ length (writes t) = length files
  /\ creates t = [].
Proof.
  intros Hid Hne t.
  assert (Ht : truthy (id item) = Some target) by (rewrite Hid; apply truthy_Some, Hne).
  subst t. rewrite promptForGistSelection_accept, (onDidAccept_append _ _ _ _ _ Ht).
  cbn [trace fst].
  pose proof (writes_of_write_events target files) as Hw.
  pose proof (creates_of_write_events target files) as Hc.
  unfold writes, creates in *. cbn [collect as_write as_create].
  rewrite Hw, Hc, length_map. auto.
Qed.

(** C2: accepting the public create-new entry issues exactly one create request,
    with [isPublic = true]; accepting the secret one issues exactly one, with
    [isPublic = false].  Either request carries the candidate files, the answer
    of the description box and [false] for the notebook flag, and no file is
    written.  This holds for every batch, the non-empty ones among them. *)
Theorem promptForGistSelection_sentinel_creates store_gists files rest answer :
  let public := mkItem CREATE_PUBLIC_GIST_ITEM None None (Some true) in
  let secret := mkItem CREATE_SECRET_GIST_ITEM None None (Some true) in
  let run item := trace (promptForGistSelection store_gists files
                           (Accepted (item :: rest)) answer) in
  CREATE_GIST_ITEMS = [public; secret]
  /\ creates (run public) = [(files, true, answer, false)]
  /\ writes (run public) = []
  /\ creates (run secret) = [(files, false, answer, false)]
  /\ writes (run secret) = [].
Proof.
  intros public secret run. subst run. cbn beta.
  rewrite !promptForGistSelection_accept.
  rewrite !onDidAccept_create by reflexivity.
  repeat split; reflexivity.
Qed.

(** C7: when the list is closed without an accept, whatever the batch, the
    command issues no create request and no write, and ends without an error. *)
Theorem promptForGistSelection_dismissed store_gists files answer :
  let run := promptForGistSelection store_gists files Dismissed answer in
  creates (trace run) = [] /\ writes (trace run) = [] /\ outcome run = Done tt.
Proof. repeat split; reflexivity. Qed.

(** The accept handler never opens a list. *)
Lemma onDidAccept_shows_nothing files selectedItems answer placeholder items :
  ~ In (EListShow placeholder items) (trace (onDidAccept files selectedItems answer)).
Proof.
  destruct selectedItems as [|item rest].
  - cbn. intros [H|[]]. discriminate H.
  - destruct (truthy (id item)) as [target|] eqn:Hid.
    + rewrite (onDidAccept_append _ _ _ _ _ Hid). cbn [trace fst].
      intros [H|[H|H]]; try discriminate H.
      apply in_map_iff in H. destruct H as [file [H _]]. discriminate H.
    + rewrite (onDidAccept_create _ _ _ _ Hid). cbn.
      intros H. repeat (destruct H as [H|H]; [discriminate H|]). exact H.
Qed.

(** C9: the list shown by [promptForGistSelection] is the public create-new
    entry, then the secret one, then one entry per Gist of the store, in the
    order of the store; it is the first thing the command does and the only
    list it opens. *)
Theorem promptForGistSelection_list_order store_gists files user answer :
  exists rest,
    trace (promptForGistSelection store_gists files user answer)
    = EListShow "Specify the gist you'd like to add the file(s) to"
        (mkItem CREATE_PUBLIC_GIST_ITEM None None (Some true)
           :: mkItem CREATE_SECRET_GIST_ITEM None None (Some true)
           :: map gistToItem store_gists)
        :: rest
    /\ forall placeholder items, ~ In (EListShow placeholder items) rest.
Proof.
  destruct user as [|selectedItems].
  - exists []. split; [reflexivity|]. intros ? ? [].
  - rewrite promptForGistSelection_accept. eexists. split; [reflexivity|].
    intros placeholder items. apply onDidAccept_shows_nothing.
Qed.

(** C10: an accepted item derived from a Gist whose [id] is the empty string
    takes the create path: one create request, public exactly when the item's
    label is the public create-new label, and no write. *)
Theorem promptForGistSelection_empty_id_creates
    store_gists gist files rest answer :
  gist_id gist = "" ->
  let t := trace (promptForGistSelection store_gists files
                    (Accepted (gistToItem gist :: rest)) answer) in
  creates t
  = [(files, String.eqb (getGistLabel gist) CREATE_PUBLIC_GIST_ITEM, answer, false)]
  /\ writes t = [].
Proof.
  intros Hid t. subst t. rewrite promptForGistSelection_accept.
  rewrite onDidAccept_create by (cbn; rewrite Hid; reflexivity).
  split; reflexivity.
Qed.

(** ** Properties of [pasteGistFile] *)

Lemma emit_bind {A : Type} (e : Event) (m : M A) :
  (emit e;; m) = (e :: trace m, outcome m).
Proof. destruct m as [t [a|err]]; reflexivity. Qed.



(** The three results of the lookup: an own entry, an inherited member, nothing. *)
Lemma allowedExtensionsFor_entry extensionConfig detectedLanguage l :
  config_get extensionConfig "languageMappings" !! detectedLanguage = Some l ->
  allowedExtensionsFor extensionConfig detectedLanguage = VArray l.
Proof. intros Hl. unfold allowedExtensionsFor, get_property. rewrite Hl. reflexivity. Qed.



(** The filtering step along each of them. *)
Lemma filterByLanguage_entry arrays extensionConfig detectedLanguage gistItems l :
  config_get extensionConfig "languageMappings" !! detectedLanguage = Some l ->
  filterByLanguage arrays extensionConfig detectedLanguage gistItems
  = Done (push_underscored arrays (Some l),
          List.filter (passesFilter (push_underscored arrays (Some l)) (Some l))
                      gistItems).
Proof.
  intros Hl. unfold filterByLanguage.
  rewrite (allowedExtensionsFor_entry _ _ _ Hl). reflexivity.
Qed.



Lemma readAndInsert_trace fs gist selectedFile :
  exists rest,
    trace (readAndInsert fs gist selectedFile)
    = EReadFile (fileNameToUri (gist_id gist) selectedFile) :: rest
    /\ (rest = [] \/ exists contents, rest = [EInsert contents]).
Proof.
  unfold readAndInsert.
  destruct (fs (fileNameToUri (gist_id gist) selectedFile)) as [bytes|]; cbn.
  - eexists. split; [reflexivity|]. right. eexists. reflexivity.
  - eexists. split; [reflexivity|]. left. reflexivity.
Qed.

Lemma pasteSelected_gist_prompts gists pickGist pickFile fs :
  gist_prompts (trace (pasteSelected gists pickGist pickFile fs)) = [].
Proof.
  unfold pasteSelected.
  destruct pickGist as [selectedGist|]; [|reflexivity].
  destruct (List.find _ gists) as [gist|]; [|reflexivity].
  assert (Hread : forall file, gist_prompts (trace (readAndInsert fs gist file)) = []).
  { intros file. destruct (readAndInsert_trace fs gist file) as [rest [-> [->|[c ->]]]];
      reflexivity. }
  cbv zeta.
  destruct (map decodeDirectoryName (Object_keys (gist_files gist))) as [|f1 [|f2 fileItems]];
    try apply Hread;
    rewrite emit_bind; cbn [trace fst gist_prompts collect as_gist_prompt];
    (destruct (truthy pickFile); [apply Hread|reflexivity]).
Qed.

(** The command, by the outcome of its filtering step. *)
Lemma pasteGistFile_unfold arrays extensionConfig store_gists detectedLanguage
    pickGist pickFile fs :
  pasteGistFile arrays extensionConfig store_gists detectedLanguage pickGist pickFile fs
  = match filterByLanguage arrays extensionConfig detectedLanguage
            (map toPasteItem store_gists) with
    | Done (arrays', gistItemsFiltered) =>
        (arrays',
         (EOutput ("Detected language: " +:+ detectedLanguage)
            :: EOutput ("Allowed file extensions: "
                        +:+ show_allowed arrays
                              (allowedExtensionsFor extensionConfig detectedLanguage))
            :: EShowQuickPickGists gistItemsFiltered
                 "Select the Gist you'd like to paste a file from"
            :: trace (pasteSelected store_gists pickGist pickFile fs),
          outcome (pasteSelected store_gists pickGist pickFile fs)))
    | Throw e =>
        (arrays,
         ([EOutput ("Detected language: " +:+ detectedLanguage);
           EOutput ("Allowed file extensions: "
                    +:+ show_allowed arrays
                          (allowedExtensionsFor extensionConfig detectedLanguage))],
          Throw e))
    end.
Proof.
  unfold pasteGistFile.
  destruct (filterByLanguage arrays extensionConfig detectedLanguage
              (map toPasteItem store_gists)) as [[arrays' gistItemsFiltered]|e].
  - destruct (pasteSelected store_gists pickGist pickFile fs) as [t [[]|e]];
      reflexivity.
  - reflexivity.
Qed.

(** A run in which the list of Gists was shown went through the filtering
    step, and continues with the answers. *)
Lemma pasteGistFile_shown arrays extensionConfig store_gists detectedLanguage
    pickGist pickFile fs :
  gist_list_shown (snd (pasteGistFile arrays extensionConfig store_gists
                          detectedLanguage pickGist pickFile fs)) ->
  exists arrays' gistItemsFiltered,
    filterByLanguage arrays extensionConfig detectedLanguage
      (map toPasteItem store_gists) = Done (arrays', gistItemsFiltered)
    /\ pasteGistFile arrays extensionConfig store_gists detectedLanguage
         pickGist pickFile fs
       = (arrays',
          (EOutput ("Detected language: " +:+ detectedLanguage)
             :: EOutput ("Allowed file extensions: "
                         +:+ show_allowed arrays
                               (allowedExtensionsFor extensionConfig detectedLanguage))
             :: EShowQuickPickGists gistItemsFiltered
                  "Select the Gist you'd like to paste a file from"
             :: trace (pasteSelected store_gists pickGist pickFile fs),
           outcome (pasteSelected store_gists pickGist pickFile fs))).
Proof.
  unfold gist_list_shown. rewrite pasteGistFile_unfold.
  destruct (filterByLanguage arrays extensionConfig detectedLanguage
              (map toPasteItem store_gists)) as [[arrays' gistItemsFiltered]|e].
  - intros _. exists arrays', gistItemsFiltered. split; reflexivity.
  - cbn. intros Hshown. contradiction.
Qed.

(** C3: with the language map [{ "python": [".py"] }] and the detected language
    ["python"], a Gist whose only file is ["notes.py_"] passes the filter,
    through the underscore-suffixed entry the augmentation adds before the
    filtering, and a Gist whose only file is ["notes.txt"] does not.
    [getFileExtension] is taken to give the extension with its dot, as the
    configured entries are written. *)
Theorem pasteGistFile_python_filter
    arrays extensionConfig l (gist : Gist) :
  config_get extensionConfig "languageMappings" = {[ "python" := l ]} ->
  arrays !!! l = [".py"] ->
  getFileExtension "notes.py_" = ".py_" ->
  getFileExtension "notes.txt" = ".txt" ->
  (Object_keys (gist_files gist) = ["notes.py_"] ->
   filterByLanguage arrays extensionConfig "python" [toPasteItem gist]
   = Done (<[l := [".py"; ".py_"]]> arrays, [toPasteItem gist]))
  /\ (Object_keys (gist_files gist) = ["notes.txt"] ->
      filterByLanguage arrays extensionConfig "python" [toPasteItem gist]
      = Done (<[l := [".py"; ".py_"]]> arrays, [])).
Proof.
  intros Hmap Harr Hpy Htxt.
  assert (Hl : config_get extensionConfig "languageMappings" !! "python" = Some l)
    by (rewrite Hmap; apply lookup_singleton_eq).
  assert (Hpush : push_underscored arrays (Some l) = <[l := [".py"; ".py_"]]> arrays)
    by (unfold push_underscored; rewrite Harr; reflexivity).
  split; intros Hkeys; rewrite (filterByLanguage_entry _ _ _ _ _ Hl), Hpush;
    f_equal; f_equal; cbn [List.filter passesFilter toPasteItem p_files];
    rewrite Hkeys, lookup_total_insert_eq; cbn [existsb].
  - rewrite Hpy. reflexivity.
  - rewrite Htxt. reflexivity.
Qed.



Lemma passesFilter_widens arrays l gist :
  passesFilter arrays (Some l) gist = true ->
  passesFilter (push_underscored arrays (Some l)) (Some l) gist = true.
Proof.
  unfold passesFilter, push_underscored. rewrite lookup_total_insert_eq.
  rewrite !existsb_exists. intros [file [Hfile Hext]]. exists file.
  split; [exact Hfile|]. unfold includes in *. rewrite existsb_app, Hext.
  reflexivity.
Qed.


(** C8: when the Gist resolved from the selection has exactly one file, no file
    list is shown and the one read issued is that of this file; when it has
    more than one file and the file list is dismissed, the file list was shown
    once, no read is issued and the command ends without an error.  A selection
    is an answer to the list of Gists, so the run is one that showed it. *)
Theorem pasteGistFile_file_resolution
    arrays extensionConfig store_gists detectedLanguage selectedGist gist fs :
  List.find (fun gist => String.eqb (gist_id gist) (p_id selectedGist)) store_gists
  = Some gist ->
  (forall pickFile name file,
      gist_files gist = [(name, file)] ->
      let run := snd (pasteGistFile arrays extensionConfig store_gists
                        detectedLanguage (Some selectedGist) pickFile fs) in
      gist_list_shown run ->
      file_prompts (trace run) = []
      /\ reads (trace run)
         = [fileNameToUri (gist_id gist) (decodeDirectoryName name)])
  /\ (1 < length (gist_files gist) ->
      let run := snd (pasteGistFile arrays extensionConfig store_gists
                        detectedLanguage (Some selectedGist) None fs) in
      gist_list_shown run ->
      file_prompts (trace run)
      = [map decodeDirectoryName (Object_keys (gist_files gist))]
      /\ reads (trace run) = []
      /\ outcome run = Done tt).
Proof.
  intros Hfind. split.
  - intros pickFile name file Hfiles run Hshown. subst run.
    destruct (pasteGistFile_shown _ _ _ _ _ _ _ Hshown) as [arrays' [shown [_ ->]]].
    cbn [snd trace fst].
    unfold pasteSelected. rewrite Hfind, Hfiles. cbn [Object_keys map fst].
    destruct (readAndInsert_trace fs gist (decodeDirectoryName name))
      as [rest [-> [->|[contents ->]]]]; split; reflexivity.
  - intros Hlen run Hshown. subst run.
    destruct (pasteGistFile_shown _ _ _ _ _ _ _ Hshown) as [arrays' [shown [_ ->]]].
    cbn [snd trace fst outcome].
    unfold pasteSelected. rewrite Hfind.
    destruct (gist_files gist) as [|[n1 f1] [|[n2 f2] more]]; cbn in Hlen; try lia.
    repeat split; reflexivity.
Qed.

(** ** Further properties of [promptForGistSelection] *)

Lemma collect_map_none {A B : Type} (kind : Event -> option A) (f : B -> Event)
    (l : list B) :
  (forall x, kind (f x) = None) -> collect kind (map f l) = [].
Proof.
  intros Hnone. induction l as [|x l IH]; [reflexivity|].
  cbn. rewrite Hnone. exact IH.
Qed.

Lemma collect_map_some {A B : Type} (kind : Event -> option A) (f : B -> Event)
    (g : B -> A) (l : list B) :
  (forall x, kind (f x) = Some (g x)) -> collect kind (map f l) = map g l.
Proof.
  intros Hsome. induction l as [|x l IH]; [reflexivity|].
  cbn. rewrite Hsome, IH. reflexivity.
Qed.

(** X1: whatever item is accepted, the handler issues requests of one kind only:
    either a single create request and no write, or no create request and one
    write per candidate file.  One progress notification is opened and the
    handler does not fail. *)
Theorem promptForGistSelection_one_kind_of_request
    store_gists files item rest answer :
  let run := promptForGistSelection store_gists files
               (Accepted (item :: rest)) answer in
  ((exists request, creates (trace run) = [request] /\ writes (trace run) = [])
   \/ (creates (trace run) = [] /\ length (writes (trace run)) = length files))
  /\ length (progresses (trace run)) = 1
  /\ outcome run = Done tt.
Proof.
  cbv zeta. rewrite promptForGistSelection_accept.
  destruct (truthy (id item)) as [target|] eqn:Hid.
  - rewrite (onDidAccept_append _ _ _ _ _ Hid).
    cbn [trace outcome fst snd]. unfold creates, writes, progresses.
    cbn [collect as_create as_write as_progress].
    rewrite (collect_map_none as_create), (collect_map_none as_progress)
      by reflexivity.
    rewrite (collect_map_some as_write _
               (fun file => (fileNameToUri target (filename file),
                             stringToByteArray (content file)))) by reflexivity.
    rewrite length_map. split; [right|]; auto.
  - rewrite (onDidAccept_create _ _ _ _ Hid).
    split; [left; eexists; split; reflexivity|]. split; reflexivity.
Qed.

(** X2: an accept event that carries no selected item hides the list and then fails
    on reading [id] of [undefined]; nothing is created or written. *)
Theorem promptForGistSelection_accept_without_selection store_gists files answer :
  let run := promptForGistSelection store_gists files (Accepted []) answer in
  (exists msg, outcome run = Throw (TypeError msg))
  /\ (exists items, trace run = [EListShow
        "Specify the gist you'd like to add the file(s) to" items; EListHide])
  /\ creates (trace run) = []
  /\ writes (trace run) = [].
Proof.
  cbv zeta. split; [eexists; reflexivity|].
  split; [eexists; reflexivity|]. split; reflexivity.
Qed.

(** X3: dismissing the description box does not cancel the creation: on the create
    path the request is still issued, with an [undefined] description. *)
Theorem promptForGistSelection_description_dismissed
    store_gists files item rest :
  truthy (id item) = None ->
  let run := promptForGistSelection store_gists files
               (Accepted (item :: rest)) None in
  creates (trace run)
  = [(files, String.eqb (label item) CREATE_PUBLIC_GIST_ITEM, None, false)]
  /\ input_boxes (trace run) = ["Enter an optional description for the new Gist"]
  /\ outcome run = Done tt.
Proof.
  intros Hid. cbv zeta. rewrite promptForGistSelection_accept.
  rewrite (onDidAccept_create _ _ _ _ Hid). repeat split; reflexivity.
Qed.

(** X4: the selection command reads no file, inserts no text and opens no paste
    list; it shows its own list exactly once and asks for text at most once. *)
Theorem promptForGistSelection_never_reads store_gists files user answer :
  let t := trace (promptForGistSelection store_gists files user answer) in
  reads t = [] /\ inserts t = [] /\ gist_prompts t = [] /\ file_prompts t = []
  /\ length (list_shows t) = 1
  /\ length (input_boxes t) <= 1.
Proof.
  cbv zeta. destruct user as [|[|item rest]].
  - repeat split; cbn; auto.
  - repeat split; cbn; auto.
  - rewrite promptForGistSelection_accept.
    destruct (truthy (id item)) as [target|] eqn:Hid.
    + rewrite (onDidAccept_append _ _ _ _ _ Hid). cbn [trace fst].
      unfold reads, inserts, gist_prompts, file_prompts, list_shows, input_boxes.
      cbn [collect as_read as_insert as_gist_prompt as_file_prompt as_list_show
             as_input_box].
      rewrite (collect_map_none as_read), (collect_map_none as_insert),
        (collect_map_none as_gist_prompt), (collect_map_none as_file_prompt),
        (collect_map_none as_list_show), (collect_map_none as_input_box)
        by reflexivity.
      repeat split; cbn; auto.
    + rewrite (onDidAccept_create _ _ _ _ Hid). repeat split; cbn; auto.
Qed.

(** ** Further properties of [pasteGistFile] *)

(** Splits a run of the command into the paths it can take. *)
Ltac paste_paths fs :=
  rewrite ?pasteGistFile_unfold; unfold pasteSelected, readAndInsert;
  repeat match goal with
  | |- context [filterByLanguage ?arrays ?config ?language ?items] =>
      destruct (filterByLanguage arrays config language items) as [[? ?]|?]
  | |- context [match ?pick with Some _ => _ | None => _ end] =>
      is_var pick; destruct pick
  | |- context [List.find ?f ?l] =>
      let Hfind := fresh "Hfind" in destruct (List.find f l) eqn:Hfind
  | |- context [map _ (Object_keys ?l)] =>
      let Hfiles := fresh "Hfiles" in
      destruct l as [|[? ?] [|[? ?] ?]] eqn:Hfiles;
      cbn [map Object_keys fst]
  | |- context [truthy ?pick] =>
      let Hpick := fresh "Hpick" in destruct (truthy pick) eqn:Hpick
  | |- context [fs ?uri] =>
      let Hfs := fresh "Hfs" in destruct (fs uri) eqn:Hfs
  end.

(** X6: when the first list is dismissed the command stops there: no file list, no
    read, no insertion, and, the list having been shown, no error. *)
Theorem pasteGistFile_first_prompt_dismissed
    arrays extensionConfig store_gists detectedLanguage pickFile fs :
  let run := snd (pasteGistFile arrays extensionConfig store_gists
                    detectedLanguage None pickFile fs) in
  file_prompts (trace run) = [] /\ reads (trace run) = []
  /\ inserts (trace run) = []
  /\ (gist_list_shown run -> outcome run = Done tt).
Proof.
  cbv zeta. unfold gist_list_shown. rewrite pasteGistFile_unfold.
  destruct (filterByLanguage arrays extensionConfig detectedLanguage
              (map toPasteItem store_gists)) as [[arrays' shown]|e];
    repeat split; try reflexivity.
  cbn. intros Hshown. contradiction.
Qed.


Lemma find_by_id_offered store_gists (selectedGist : PasteItem) :
  In selectedGist (map toPasteItem store_gists) ->
  exists gist,
    List.find (fun gist => String.eqb (gist_id gist) (p_id selectedGist)) store_gists
    = Some gist
    /\ In gist store_gists /\ gist_id gist = p_id selectedGist.
Proof.
  intros Hin. apply in_map_iff in Hin. destruct Hin as [origin [Hitem Hin]].
  destruct (List.find (fun gist => String.eqb (gist_id gist) (p_id selectedGist))
              store_gists) as [gist|] eqn:Hfind.
  - exists gist. apply find_some in Hfind. destruct Hfind as [Hg Heq].
    apply String.eqb_eq in Heq. auto.
  - apply (find_none _ _ Hfind) in Hin. subst selectedGist. cbn in Hin.
    rewrite String.eqb_refl in Hin. discriminate Hin.
Qed.

(** X8: a selection taken from the list the command showed always resolves to a
    Gist of the store with the selected id, so that, the list having been
    shown, the lookup of its files cannot fail with a type error. *)
Theorem pasteGistFile_offered_item_resolves
    arrays extensionConfig store_gists detectedLanguage selectedGist pickFile fs :
  In selectedGist (map toPasteItem store_gists) ->
  (exists gist,
      List.find (fun gist => String.eqb (gist_id gist) (p_id selectedGist)) store_gists
      = Some gist
      /\ In gist store_gists /\ gist_id gist = p_id selectedGist)
  /\ (let run := snd (pasteGistFile arrays extensionConfig store_gists
                         detectedLanguage (Some selectedGist) pickFile fs) in
      gist_list_shown run ->
      forall msg, outcome run <> Throw (TypeError msg)).
Proof.
  intros Hin. pose proof (find_by_id_offered _ _ Hin) as Hgist.
  split; [exact Hgist|]. destruct Hgist as [gist [Hfind _]].
  intros run Hshown msg. subst run.
  destruct (pasteGistFile_shown _ _ _ _ _ _ _ Hshown) as [arrays' [shown [_ ->]]].
  cbn [snd outcome].
  unfold pasteSelected. rewrite Hfind.
  paste_paths fs; cbn; discriminate.
Qed.

(** X9: every read the command issues is addressed to the id of the selected item. *)
Theorem pasteGistFile_reads_selected_gist
    arrays extensionConfig store_gists detectedLanguage pickGist pickFile fs uri :
  In uri (reads (trace (snd (pasteGistFile arrays extensionConfig store_gists
                               detectedLanguage pickGist pickFile fs)))) ->
  exists selectedGist name,
    pickGist = Some selectedGist /\ uri = fileNameToUri (p_id selectedGist) name.
Proof.
  rewrite pasteGistFile_unfold.
  destruct (filterByLanguage arrays extensionConfig detectedLanguage
              (map toPasteItem store_gists)) as [[arrays' shown]|e]; [|intros []].
  cbn [snd trace fst]. unfold pasteSelected.
  destruct pickGist as [selectedGist|]; [|intros []].
  destruct (List.find _ store_gists) as [gist|] eqn:Hfind; [|intros []].
  apply find_some in Hfind. destruct Hfind as [_ Heq]. apply String.eqb_eq in Heq.
  intros Hin. exists selectedGist.
  assert (Hname : exists name, uri = fileNameToUri (gist_id gist) name);
    [|destruct Hname as [name ->]; exists name; rewrite Heq; auto].
  revert Hin. unfold readAndInsert.
  destruct (gist_files gist) as [|[n1 f1] [|[n2 f2] more]]; cbn [map Object_keys fst];
    try destruct (truthy pickFile) as [selectedFile|]; try (intros []);
    match goal with
    | |- context [fs ?u] => destruct (fs u)
    end; cbn; intros [<-|[]]; eexists; reflexivity.
Qed.

(** X10: what is inserted is what was read: when the file addressed by the read
    exists, its bytes, decoded, are inserted once and the command ends well;
    when it does not, nothing is inserted and the command ends with the
    rejection of the read. *)
Theorem pasteGistFile_inserts_what_it_read
    arrays extensionConfig store_gists detectedLanguage pickGist pickFile fs uri :
  let run := snd (pasteGistFile arrays extensionConfig store_gists
                    detectedLanguage pickGist pickFile fs) in
  In uri (reads (trace run)) ->
  match fs uri with
  | Some bytes =>
      inserts (trace run) = [byteArrayToString bytes] /\ outcome run = Done tt
  | None =>
      inserts (trace run) = [] /\ outcome run = Throw (Rejected "readFile")
  end.
Proof.
  cbv zeta. rewrite pasteGistFile_unfold.
  destruct (filterByLanguage arrays extensionConfig detectedLanguage
              (map toPasteItem store_gists)) as [[arrays' shown]|e]; [|intros []].
  cbn [snd trace fst outcome].
  unfold pasteSelected, readAndInsert.
  destruct pickGist as [selectedGist|]; [|intros []].
  destruct (List.find _ store_gists) as [gist|]; [|intros []].
  destruct (gist_files gist) as [|[n1 f1] [|[n2 f2] more]]; cbn [map Object_keys fst];
    try destruct (truthy pickFile) as [selectedFile|]; try (intros []);
    match goal with
    | |- context [fs ?u] => destruct (fs u) as [bytes|] eqn:Hfs
    end; cbn; intros [<-|[]]; rewrite Hfs; split; reflexivity.
Qed.

(** X11: when the resolved Gist does not have exactly one file (none, or several),
    the file list is shown once with the decoded names in the order of the
    Gist's keys; a non-empty answer is read from the resolved Gist under the
    name as picked, and the empty string counts as a dismissal.  The resolved
    Gist is an answer to the list of Gists, so the runs are those that showed
    it. *)
Theorem pasteGistFile_file_list
    arrays extensionConfig store_gists detectedLanguage selectedGist gist fs :
  List.find (fun gist => String.eqb (gist_id gist) (p_id selectedGist)) store_gists
  = Some gist ->
  length (gist_files gist) <> 1 ->
  let run pickFile := snd (pasteGistFile arrays extensionConfig store_gists
                             detectedLanguage (Some selectedGist) pickFile fs) in
  (forall pickFile,
      gist_list_shown (run pickFile) ->
      file_prompts (trace (run pickFile))
      = [map decodeDirectoryName (Object_keys (gist_files gist))])
  /\ (forall name, name <> "" ->
        gist_list_shown (run (Some name)) ->
        reads (trace (run (Some name))) = [fileNameToUri (gist_id gist) name])
  /\ reads (trace (run (Some ""))) = []
  /\ (gist_list_shown (run (Some "")) -> outcome (run (Some "")) = Done tt).
Proof.
  intros Hfind Hlen run. subst run. cbn beta.
  assert (Hshape : forall pickFile,
    pasteSelected store_gists (Some selectedGist) pickFile fs
    = (emit (EShowQuickPickFiles
               (map decodeDirectoryName (Object_keys (gist_files gist)))
               "Select the file to paste from");;
       match truthy pickFile with
       | None => mret tt
       | Some selectedFile => readAndInsert fs gist selectedFile
       end)).
  { intros pickFile. unfold pasteSelected. rewrite Hfind.
    destruct (gist_files gist) as [|[n1 f1] [|[n2 f2] more]];
      [reflexivity | cbn in Hlen; congruence | reflexivity]. }
  split; [|split; [|split]].
  - intros pickFile Hshown.
    destruct (pasteGistFile_shown _ _ _ _ _ _ _ Hshown) as [arrays' [shown [_ ->]]].
    rewrite Hshape, emit_bind.
    cbn [snd trace fst]. unfold file_prompts. cbn [collect as_file_prompt].
    f_equal. destruct (truthy pickFile) as [selectedFile|]; [|reflexivity].
    destruct (readAndInsert_trace fs gist selectedFile) as [rest [-> [->|[c ->]]]];
      reflexivity.
  - intros name Hname Hshown.
    destruct (pasteGistFile_shown _ _ _ _ _ _ _ Hshown) as [arrays' [shown [_ ->]]].
    rewrite Hshape, emit_bind.
    rewrite (truthy_Some _ Hname). cbn [snd trace fst].
    destruct (readAndInsert_trace fs gist name) as [rest [-> [->|[c ->]]]];
      reflexivity.
  - rewrite pasteGistFile_unfold, Hshape.
    destruct (filterByLanguage arrays extensionConfig detectedLanguage
                (map toPasteItem store_gists)) as [[arrays' shown]|e]; reflexivity.
  - intros Hshown.
    destruct (pasteGistFile_shown _ _ _ _ _ _ _ Hshown) as [arrays' [shown [_ ->]]].
    rewrite Hshape. reflexivity.
Qed.

(** ** The guarded branch: augmenting and testing an allow-list *)

Lemma includes_In (arr : list string) (x : string) :
  includes arr x = true <-> In x arr.
Proof.
  unfold includes. rewrite existsb_exists. split.
  - intros [y [Hin Heq]]. apply String.eqb_eq in Heq. subst y. exact Hin.
  - intros Hin. exists x. split; [exact Hin | apply String.eqb_refl].
Qed.

(** X12: after the [push], the array behind the reference holds what it held,
    followed by the underscore-suffixed copy of each entry and nothing else:
    its length doubles, and the arrays behind other references are as
    before. *)
Theorem push_underscored_allows (arrays : gmap loc (list string)) (l : loc) :
  (forall x,
      In x (push_underscored arrays (Some l) !!! l)
      <-> In x (arrays !!! l)
          \/ exists e, In e (arrays !!! l) /\ x = e +:+ "_")
  /\ length (push_underscored arrays (Some l) !!! l) = 2 * length (arrays !!! l)
  /\ forall l', l' <> l -> push_underscored arrays (Some l) !! l' = arrays !! l'.
Proof.
  unfold push_underscored. rewrite lookup_total_insert_eq. split; [|split].
  - intros x. rewrite in_app_iff, in_map_iff. split.
    + intros [Hold|[e [He Hin]]]; [left; exact Hold | right; exists e; auto].
    + intros [Hold|[e [Hin He]]]; [left; exact Hold | right; exists e; auto].
  - rewrite length_app, length_map. lia.
  - intros l' Hne. apply lookup_insert_ne. congruence.
Qed.

(** X13: against an allow-list, a Gist item passes exactly when one of its file
    names has an extension found in the array; in particular an item without
    files, or an empty array, passes nothing. *)
Theorem passesFilter_allow_list (arrays : gmap loc (list string)) (l : loc)
    (gist : PasteItem) :
  passesFilter arrays (Some l) gist = true
  <-> exists file, In file (p_files gist)
                   /\ In (getFileExtension file) (arrays !!! l).
Proof.
  unfold passesFilter. rewrite existsb_exists.
  split; intros [file [Hfile Hext]]; exists file; split; try exact Hfile;
    apply includes_In; exact Hext.
Qed.

(** X14: the augmentation only widens the filter: an item that passes the configured
    array still passes the augmented one. *)
Theorem passesFilter_push_widens (arrays : gmap loc (list string)) (l : loc)
    (gist : PasteItem) :
  passesFilter arrays (Some l) gist = true ->
  passesFilter (push_underscored arrays (Some l)) (Some l) gist = true.
Proof. apply passesFilter_widens. Qed.

(** ** Properties of [addSelectionToGist] and [addFileToGist] *)

Lemma bind_done {A B : Type} (t : list Event) (a : A) (k : A -> M B) :
  (((t, Done a) : M A) ≫= k) = (t ++ trace (k a), outcome (k a)).
Proof. unfold mbind, M_bind. destruct (k a) as [t' o]. reflexivity. Qed.

Lemma bind_throw {A B : Type} (t : list Event) (e : Error) (k : A -> M B) :
  (((t, Throw e) : M A) ≫= k) = (t, Throw e).
Proof. reflexivity. Qed.

(** X15: without a file name (box dismissed, or left empty) the selection command
    stops after the input box: no list is shown, nothing is created or
    written, and no error is raised. *)
Theorem addSelectionToGist_without_name
    store_gists nameAnswer selectionText user answer :
  truthy nameAnswer = None ->
  addSelectionToGist store_gists nameAnswer selectionText user answer
  = ([EInputBox "Enter a name to give to this file"], Done tt).
Proof.
  intros Hname. unfold addSelectionToGist, askForFileName.
  cbn. rewrite Hname. reflexivity.
Qed.

(** X16: with a non-empty file name the selection becomes a batch of one file under
    that name: accepting an item with a non-empty id writes the selected text,
    once, to that id and name; accepting an item with a falsy id asks for a
    description and creates a Gist holding that one file. *)
Theorem addSelectionToGist_single_file
    store_gists filename selectionText answer :
  filename <> "" ->
  let run user := addSelectionToGist store_gists (Some filename) selectionText
                    user answer in
  (forall item rest target,
      id item = Some target -> target <> "" ->
      writes (trace (run (Accepted (item :: rest))))
      = [(fileNameToUri target filename, stringToByteArray selectionText)]
      /\ creates (trace (run (Accepted (item :: rest)))) = []
      /\ input_boxes (trace (run (Accepted (item :: rest))))
         = ["Enter a name to give to this file"])
  /\ (forall item rest,
        truthy (id item) = None ->
        creates (trace (run (Accepted (item :: rest))))
        = [([mkGistFile filename selectionText],
            String.eqb (label item) CREATE_PUBLIC_GIST_ITEM, answer, false)]
        /\ writes (trace (run (Accepted (item :: rest)))) = []
        /\ input_boxes (trace (run (Accepted (item :: rest))))
           = ["Enter a name to give to this file";
              "Enter an optional description for the new Gist"]).
Proof.
  intros Hname run.
  assert (Hrun : forall user,
    run user
    = (EInputBox "Enter a name to give to this file"
         :: trace (promptForGistSelection store_gists
                     [mkGistFile filename selectionText] user answer),
       outcome (promptForGistSelection store_gists
                  [mkGistFile filename selectionText] user answer))).
  { intros user. subst run. unfold addSelectionToGist, askForFileName. cbn beta.
    rewrite emit_bind. cbn [trace outcome fst snd M_ret mret].
    rewrite bind_done, (truthy_Some _ Hname). reflexivity. }
  split.
  - intros item rest target Hid Htarget.
    assert (Ht : truthy (id item) = Some target)
      by (rewrite Hid; apply truthy_Some, Htarget).
    rewrite Hrun, promptForGistSelection_accept, (onDidAccept_append _ _ _ _ _ Ht).
    repeat split; reflexivity.
  - intros item rest Hid.
    rewrite Hrun, promptForGistSelection_accept, (onDidAccept_create _ _ _ _ Hid).
    repeat split; reflexivity.
Qed.

Lemma nodeToFile_ok fs node bytes :
  fs (nodeUri node) = Some bytes ->
  nodeToFile fs node
  = ([EReadFile (nodeUri node)],
     Done {| filename := nodeName node; content := byteArrayToString bytes |}).
Proof.
  intros Hfs. destruct node; cbn in Hfs; unfold nodeToFile, readFile;
    rewrite emit_bind, Hfs; reflexivity.
Qed.

Lemma nodeToFile_fail fs node :
  fs (nodeUri node) = None ->
  nodeToFile fs node = ([EReadFile (nodeUri node)], Throw (Rejected "readFile")).
Proof.
  intros Hfs. destruct node; cbn in Hfs; unfold nodeToFile, readFile;
    rewrite emit_bind, Hfs; reflexivity.
Qed.

Lemma readNodes_ok fs (bytesOf : Node -> list byte) nodes files :
  (forall node, In node nodes -> fs (nodeUri node) = Some (bytesOf node)) ->
  readNodes fs nodes files
  = (map (fun node => EReadFile (nodeUri node)) nodes,
     Done (files ++ map (fun node => {| filename := nodeName node;
                                        content := byteArrayToString (bytesOf node) |})
                        nodes)).
Proof.
  revert files. induction nodes as [|node nodes IH]; intros files Hfs.
  - cbn. rewrite app_nil_r. reflexivity.
  - cbn [readNodes]. rewrite (nodeToFile_ok _ _ _ (Hfs node (or_introl eq_refl))).
    rewrite bind_done, IH by (intros n Hn; apply Hfs; right; exact Hn).
    cbn [trace outcome fst snd map]. rewrite <- app_assoc. reflexivity.
Qed.

Lemma readNodes_fail fs (bytesOf : Node -> list byte) before failing after files :
  (forall node, In node before -> fs (nodeUri node) = Some (bytesOf node)) ->
  fs (nodeUri failing) = None ->
  readNodes fs (before ++ failing :: after) files
  = (map (fun node => EReadFile (nodeUri node)) (before ++ [failing]),
     Throw (Rejected "readFile")).
Proof.
  revert files. induction before as [|node before IH]; intros files Hfs Hfail.
  - cbn [app readNodes]. rewrite (nodeToFile_fail _ _ Hfail). reflexivity.
  - cbn [app readNodes]. rewrite (nodeToFile_ok _ _ _ (Hfs node (or_introl eq_refl))).
    rewrite bind_done, IH by (auto; intros n Hn; apply Hfs; right; exact Hn).
    reflexivity.
Qed.

(** X17: when every chosen node can be read, [addFileToGist] reads each node once,
    in order, before it shows any list, and then runs the selection on the
    batch holding one file per node: named by the node (the file name of a
    tree node, the base name of a URI's path) and filled with what was read,
    not with what a tree node carries. *)
Theorem addFileToGist_batch
    store_gists targetNode multiSelectNodes fs (bytesOf : Node -> list byte)
    user answer :
  let nodes := selectNodes targetNode multiSelectNodes in
  let batch := map (fun node => {| filename := nodeName node;
                                   content := byteArrayToString (bytesOf node) |})
                   nodes in
  (forall node, In node nodes -> fs (nodeUri node) = Some (bytesOf node)) ->
  addFileToGist store_gists targetNode multiSelectNodes fs user answer
  = (map (fun node => EReadFile (nodeUri node)) nodes
       ++ trace (promptForGistSelection store_gists batch user answer),
     outcome (promptForGistSelection store_gists batch user answer)).
Proof.
  intros nodes batch Hfs. unfold addFileToGist. fold nodes.
  rewrite (readNodes_ok _ _ _ _ Hfs), bind_done. reflexivity.
Qed.

(** X18: adding nodes to an accepted item with a non-empty id: as many reads as
    nodes, as many writes as nodes, write [i] carrying under the node's name
    what read [i] returned, and no create request. *)
Theorem addFileToGist_existing_gist
    store_gists targetNode multiSelectNodes fs (bytesOf : Node -> list byte)
    item rest answer target :
  let nodes := selectNodes targetNode multiSelectNodes in
  (forall node, In node nodes -> fs (nodeUri node) = Some (bytesOf node)) ->
  id item = Some target ->
  target <> "" ->
  let t := trace (addFileToGist store_gists targetNode multiSelectNodes fs
                    (Accepted (item :: rest)) answer) in
  reads t = map nodeUri nodes
  /\ writes t
     = map (fun node => (fileNameToUri target (nodeName node),
                         stringToByteArray (byteArrayToString (bytesOf node))))
           nodes
  /\ creates t = [].
Proof.
  intros nodes Hfs Hid Htarget t. subst t.
  assert (Ht : truthy (id item) = Some target)
    by (rewrite Hid; apply truthy_Some, Htarget).
  unfold addFileToGist. fold nodes.
  rewrite (readNodes_ok _ _ _ _ Hfs), bind_done, app_nil_l.
  rewrite promptForGistSelection_accept, (onDidAccept_append _ _ _ _ _ Ht).
  cbn [trace fst]. unfold reads, writes, creates. rewrite !collect_app.
  cbn [collect as_read as_write as_create]. rewrite !map_map.
  rewrite (collect_map_some as_read _ nodeUri),
    (collect_map_none as_write), (collect_map_none as_create) by reflexivity.
  rewrite (collect_map_none as_read), (collect_map_none as_create) by reflexivity.
  rewrite (collect_map_some as_write _
             (fun node => (fileNameToUri target (nodeName node),
                           stringToByteArray (byteArrayToString (bytesOf node)))))
    by reflexivity.
  rewrite app_nil_r. auto.
Qed.

(** X19: when a node cannot be read, [addFileToGist] stops at that node with the
    rejection: the nodes before it have been read, the ones after it are not,
    no list is shown and nothing is created or written. *)
Theorem addFileToGist_unreadable_node
    store_gists targetNode multiSelectNodes fs (bytesOf : Node -> list byte)
    before failing after user answer :
  selectNodes targetNode multiSelectNodes = before ++ failing :: after ->
  (forall node, In node before -> fs (nodeUri node) = Some (bytesOf node)) ->
  fs (nodeUri failing) = None ->
  let run := addFileToGist store_gists targetNode multiSelectNodes fs user answer in
  outcome run = Throw (Rejected "readFile")
  /\ reads (trace run) = map nodeUri (before ++ [failing])
  /\ list_shows (trace run) = []
  /\ creates (trace run) = []
  /\ writes (trace run) = [].
Proof.
  intros Hnodes Hfs Hfail run. subst run. unfold addFileToGist.
  rewrite Hnodes, (readNodes_fail _ _ _ _ _ _ Hfs Hfail), bind_throw.
  cbn [trace outcome fst snd]. unfold reads, list_shows, creates, writes.
  rewrite (collect_map_some as_read _ nodeUri),
    (collect_map_none as_list_show), (collect_map_none as_create),
    (collect_map_none as_write) by reflexivity.
  auto.
Qed.

(** X20: an empty multi-selection is still a multi-selection: the target node is
    left out, nothing is read, and the selection runs on an empty batch, so
    that accepting an item with a falsy id creates a Gist without files and
    accepting one with a truthy id opens the progress notification and writes
    nothing. *)
Theorem addFileToGist_empty_selection store_gists targetNode fs answer item rest :
  let run user := addFileToGist store_gists targetNode (MultiSelect []) fs
                    user answer in
  (forall user, run user = promptForGistSelection store_gists [] user answer)
  /\ (truthy (id item) = None ->
      creates (trace (run (Accepted (item :: rest))))
      = [([], String.eqb (label item) CREATE_PUBLIC_GIST_ITEM, answer, false)])
  /\ (truthy (id item) <> None ->
      writes (trace (run (Accepted (item :: rest)))) = []
      /\ progresses (trace (run (Accepted (item :: rest)))) = ["Adding file(s)..."]).
Proof.
  intros run.
  assert (Hrun : forall user,
             run user = promptForGistSelection store_gists [] user answer).
  { intros user. subst run. unfold addFileToGist. cbn [selectNodes readNodes].
    unfold mret, M_ret. rewrite bind_done.
    destruct (promptForGistSelection store_gists [] user answer); reflexivity. }
  split; [exact Hrun|]. split.
  - intros Hid. rewrite Hrun, promptForGistSelection_accept,
      (onDidAccept_create _ _ _ _ Hid). reflexivity.
  - intros Hid. destruct (truthy (id item)) as [target|] eqn:Ht; [|congruence].
    rewrite Hrun, promptForGistSelection_accept,
      (onDidAccept_append _ _ _ _ _ Ht). split; reflexivity.
Qed.

(** X5: accepting an item of the list the command showed: the public entry creates
    a public Gist, the secret entry a secret one, and the entry of a stored
    Gist with a non-empty id writes every candidate file to that Gist and
    creates nothing. *)
Theorem promptForGistSelection_offered_item store_gists files item rest answer :
  In item (unshift (map gistToItem store_gists) CREATE_GIST_ITEMS) ->
  let t := trace (promptForGistSelection store_gists files
                    (Accepted (item :: rest)) answer) in
  (item = mkItem CREATE_PUBLIC_GIST_ITEM None None (Some true)
   /\ creates t = [(files, true, answer, false)] /\ writes t = [])
  \/ (item = mkItem CREATE_SECRET_GIST_ITEM None None (Some true)
      /\ creates t = [(files, false, answer, false)] /\ writes t = [])
  \/ (exists gist,
         In gist store_gists /\ item = gistToItem gist
         /\ (gist_id gist <> "" ->
             writes t = map (fun file => (fileNameToUri (gist_id gist) (filename file),
                                          stringToByteArray (content file))) files
             /\ creates t = [])).
Proof.
  intros Hin t. subst t. unfold unshift, CREATE_GIST_ITEMS in Hin.
  rewrite promptForGistSelection_accept.
  destruct Hin as [<-|[<-|Hin]].
  - left. rewrite onDidAccept_create by reflexivity. repeat split; reflexivity.
  - right. left. rewrite onDidAccept_create by reflexivity. repeat split; reflexivity.
  - right. right. apply in_map_iff in Hin. destruct Hin as [gist [<- Hin]].
    exists gist. split; [exact Hin|]. split; [reflexivity|]. intros Hid.
    rewrite (onDidAccept_append _ _ _ _ (gist_id gist))
      by (apply truthy_Some, Hid).
    cbn [trace fst]. unfold writes, creates. cbn [collect as_write as_create].
    rewrite (collect_map_none as_create) by reflexivity.
    rewrite (collect_map_some as_write _
               (fun file => (fileNameToUri (gist_id gist) (filename file),
                             stringToByteArray (content file)))) by reflexivity.
    auto.
Qed.

(** ** The filtering step inside the command *)



(** X23: whatever the language, a list of Gists the command shows holds only
    items built from the store. *)
Theorem pasteGistFile_shown_items_from_store
    arrays extensionConfig store_gists detectedLanguage pickGist pickFile fs
    shown item :
  In shown (gist_prompts
              (trace (snd (pasteGistFile arrays extensionConfig store_gists
                             detectedLanguage pickGist pickFile fs)))) ->
  In item shown ->
  In item (map toPasteItem store_gists).
Proof.
  rewrite pasteGistFile_unfold. unfold filterByLanguage.
  destruct (augment arrays (allowedExtensionsFor extensionConfig detectedLanguage))
    as [[arrays' allowed]|e]; [|intros []].
  cbn [snd trace fst gist_prompts collect as_gist_prompt].
  rewrite pasteSelected_gist_prompts. intros [<-|[]] Hitem.
  apply filter_In in Hitem. exact (proj1 Hitem).
Qed.

End Commands.

(** ** Closed instances on the sample data *)

(** What the guarded statement does with an allow-list: the array behind the
    reference grows in place, and a later lookup through the same reference
    sees the longer array. *)
Example push_underscored_in_place :
  push_underscored python_arrays (Some 1%positive) !! 1%positive
  = Some [".py"; ".py_"]
  /\ push_underscored (push_underscored python_arrays (Some 1%positive))
       (Some 1%positive) !! 1%positive
     = Some [".py"; ".py_"; ".py_"; ".py__"].
Proof. split; reflexivity. Qed.

(** With that allow-list in hand, the filter predicate tells the two sample
    Gists apart. *)
Example passesFilter_on_augmented_list :
  let arrays := push_underscored python_arrays (Some 1%positive) in
  passesFilter sample_extension arrays (Some 1%positive)
    (toPasteItem sample_label sample_description notes_py_gist) = true
  /\ passesFilter sample_extension arrays (Some 1%positive)
       (toPasteItem sample_label sample_description notes_txt_gist) = false.
Proof. split; reflexivity. Qed.

(** C1 as stated fails for an item whose [id] is present but empty: the store
    holds a Gist with the empty id, the user accepts its item with two
    candidate files, and no write is dispatched. *)
Lemma promptForGistSelection_present_empty_id_no_write :
  let item := gistToItem sample_label sample_description empty_id_gist in
  let t := trace (promptForGistSelection sample_label
                    sample_description sample_uri list_byte_of_string
                    [empty_id_gist] sample_files (Accepted [item]) (Some "d")) in
  id item = Some ""
  /\ writes t = []
  /\ length (writes t) <> length sample_files
  /\ creates t = [(sample_files, false, Some "d", false)].
Proof. cbv zeta. repeat split. discriminate. Qed.

Lemma promptForGistSelection_existing_gist_writes_witness :
  let item := gistToItem sample_label sample_description two_file_gist in
  let t := trace (promptForGistSelection sample_label
                    sample_description sample_uri list_byte_of_string
                    [two_file_gist] sample_files (Accepted [item]) None) in
  (id item = Some "c3" /\ "c3" <> "")
  /\ writes t = [(("c3", "one.txt"), list_byte_of_string "1");
                   (("c3", "two.txt"), list_byte_of_string "2")]
  /\ length (writes t) = length sample_files
  /\ creates t = [].
Proof.
  cbv zeta. split; [split; [reflexivity | discriminate]|].
  apply (promptForGistSelection_existing_gist_writes sample_label
           sample_description sample_uri list_byte_of_string [two_file_gist]
           sample_files (gistToItem sample_label sample_description two_file_gist)
           [] None "c3"); [reflexivity | discriminate].
Defined.

Lemma promptForGistSelection_empty_id_creates_witness :
  let t := trace (promptForGistSelection sample_label
                    sample_description sample_uri list_byte_of_string
                    [empty_id_gist] sample_files
                    (Accepted [gistToItem sample_label sample_description empty_id_gist])
                    (Some "d")) in
  gist_id empty_id_gist = ""
  /\ creates t = [(sample_files, false, Some "d", false)]
  /\ writes t = [].
Proof.
  cbv zeta. split; [reflexivity|].
  apply (promptForGistSelection_empty_id_creates sample_label
           sample_description sample_uri list_byte_of_string [empty_id_gist]
           empty_id_gist sample_files [] (Some "d")).
  reflexivity.
Defined.

(** The language map of the sample configuration, its array, and the stand-in
    for [getFileExtension] on the two file names of C3. *)
Lemma pasteGistFile_python_filter_witness :
  (config_get python_config "languageMappings" = {[ "python" := 1%positive ]}
   /\ python_arrays !!! 1%positive = [".py"]
   /\ sample_extension "notes.py_" = ".py_"
   /\ sample_extension "notes.txt" = ".txt")
  /\ filterByLanguage sample_extension python_arrays python_config "python"
       [toPasteItem sample_label sample_description notes_py_gist]
     = Done (<[1%positive := [".py"; ".py_"]]> python_arrays,
             [toPasteItem sample_label sample_description notes_py_gist])
  /\ filterByLanguage sample_extension python_arrays python_config "python"
       [toPasteItem sample_label sample_description notes_txt_gist]
     = Done (<[1%positive := [".py"; ".py_"]]> python_arrays, []).
Proof.
  split; [repeat split; reflexivity|]. split.
  - apply (proj1 (pasteGistFile_python_filter sample_label sample_description
                    sample_extension python_arrays python_config 1%positive
                    notes_py_gist eq_refl eq_refl eq_refl eq_refl)).
    reflexivity.
  - apply (proj2 (pasteGistFile_python_filter sample_label sample_description
                    sample_extension python_arrays python_config 1%positive
                    notes_txt_gist eq_refl eq_refl eq_refl eq_refl)).
    reflexivity.
Defined.







Lemma pasteGistFile_file_resolution_witness :
  let run gist pickFile :=
    snd (pasteGistFile sample_label sample_description
           sample_uri string_of_list_byte sample_decode sample_extension
           python_arrays python_config
           [notes_py_gist; notes_txt_gist; two_file_gist] "plaintext"
           (Some (toPasteItem sample_label sample_description gist)) pickFile
           sample_fs) in
  (gist_list_shown (run notes_txt_gist None)
   /\ gist_list_shown (run two_file_gist None))
  /\ (file_prompts (trace (run notes_txt_gist None)) = []
      /\ reads (trace (run notes_txt_gist None)) = [("b2", "notes.txt")])
  /\ (file_prompts (trace (run two_file_gist None)) = [["a.md"; "b.md"]]
      /\ reads (trace (run two_file_gist None)) = []
      /\ outcome (run two_file_gist None) = Done tt).
Proof.
  cbv zeta.
  assert (Hshown : forall gist,
    gist_list_shown
      (snd (pasteGistFile sample_label sample_description sample_uri
              string_of_list_byte sample_decode sample_extension python_arrays
              python_config [notes_py_gist; notes_txt_gist; two_file_gist]
              "plaintext"
              (Some (toPasteItem sample_label sample_description gist)) None
              sample_fs)))
    by (intros gist; unfold gist_list_shown; rewrite pasteGistFile_unfold;
        cbn; discriminate).
  split; [split; apply Hshown|]. split.
  - apply (proj1 (pasteGistFile_file_resolution sample_label
             sample_description sample_uri string_of_list_byte sample_decode
             sample_extension python_arrays python_config
             [notes_py_gist; notes_txt_gist; two_file_gist] "plaintext"
             (toPasteItem sample_label sample_description notes_txt_gist)
             notes_txt_gist sample_fs eq_refl)
           None "notes.txt" (mkGistFile "notes.txt" "hello") eq_refl).
    apply Hshown.
  - apply (proj2 (pasteGistFile_file_resolution sample_label
             sample_description sample_uri string_of_list_byte sample_decode
             sample_extension python_arrays python_config
             [notes_py_gist; notes_txt_gist; two_file_gist] "plaintext"
             (toPasteItem sample_label sample_description two_file_gist)
             two_file_gist sample_fs eq_refl)).
    + cbn. lia.
    + apply Hshown.
Defined.

(** ** Closed instances of the further properties *)

Lemma promptForGistSelection_description_dismissed_witness :
  let item := gistToItem sample_label sample_description empty_id_gist in
  let run := promptForGistSelection sample_label sample_description sample_uri
               list_byte_of_string [empty_id_gist] sample_files
               (Accepted [item]) None in
  truthy (id item) = None
  /\ creates (trace run) = [(sample_files, false, None, false)]
  /\ input_boxes (trace run) = ["Enter an optional description for the new Gist"]
  /\ outcome run = Done tt.
Proof.
  cbv zeta. split; [reflexivity|].
  apply (promptForGistSelection_description_dismissed sample_label
           sample_description sample_uri list_byte_of_string [empty_id_gist]
           sample_files (gistToItem sample_label sample_description empty_id_gist) []).
  reflexivity.
Defined.

Lemma pasteGistFile_first_prompt_dismissed_witness :
  let run := snd (pasteGistFile sample_label sample_description sample_uri
                    string_of_list_byte sample_decode sample_extension
                    python_arrays python_config [notes_py_gist; two_file_gist]
                    "plaintext" None None sample_fs) in
  gist_list_shown run
  /\ file_prompts (trace run) = [] /\ reads (trace run) = []
  /\ inserts (trace run) = [] /\ outcome run = Done tt.
Proof.
  cbv zeta.
  assert (Hshown :
    gist_list_shown
      (snd (pasteGistFile sample_label sample_description sample_uri
              string_of_list_byte sample_decode sample_extension python_arrays
              python_config [notes_py_gist; two_file_gist] "plaintext" None None
              sample_fs)))
    by (unfold gist_list_shown; rewrite pasteGistFile_unfold; cbn; discriminate).
  split; [exact Hshown|].
  destruct (pasteGistFile_first_prompt_dismissed sample_label sample_description
              sample_uri string_of_list_byte sample_decode sample_extension
              python_arrays python_config [notes_py_gist; two_file_gist]
              "plaintext" None sample_fs) as [Hf [Hr [Hi Hdone]]].
  split; [exact Hf|]. split; [exact Hr|]. split; [exact Hi | apply Hdone, Hshown].
Defined.

Lemma pasteGistFile_offered_item_resolves_witness :
  let store := [notes_py_gist; notes_txt_gist; two_file_gist] in
  let selected := toPasteItem sample_label sample_description two_file_gist in
  In selected (map (toPasteItem sample_label sample_description) store)
  /\ (exists gist,
         List.find (fun gist => String.eqb (gist_id gist) (p_id selected)) store
         = Some gist
         /\ In gist store /\ gist_id gist = p_id selected)
  /\ forall msg,
       outcome (snd (pasteGistFile sample_label sample_description sample_uri
                       string_of_list_byte sample_decode sample_extension
                       python_arrays python_config store "plaintext"
                       (Some selected) (Some "b.md") sample_fs))
       <> Throw (TypeError msg).
Proof.
  cbv zeta.
  assert (Hin : In (toPasteItem sample_label sample_description two_file_gist)
                   (map (toPasteItem sample_label sample_description)
                        [notes_py_gist; notes_txt_gist; two_file_gist]))
    by (cbn; auto).
  split; [exact Hin|].
  destruct (pasteGistFile_offered_item_resolves sample_label sample_description
              sample_uri string_of_list_byte sample_decode sample_extension
              python_arrays python_config _ "plaintext" _ (Some "b.md") sample_fs
              Hin) as [Hgist Hok].
  split; [exact Hgist|]. apply Hok.
  unfold gist_list_shown. rewrite pasteGistFile_unfold. cbn. discriminate.
Defined.

Lemma pasteGistFile_reads_selected_gist_witness :
  let selected := toPasteItem sample_label sample_description two_file_gist in
  let t := trace (snd (pasteGistFile sample_label sample_description sample_uri
                         string_of_list_byte sample_decode sample_extension
                         python_arrays python_config
                         [notes_py_gist; notes_txt_gist; two_file_gist] "plaintext"
                         (Some selected) (Some "b.md") sample_fs)) in
  In ("c3", "b.md") (reads t)
  /\ exists selectedGist name,
       Some selected = Some selectedGist
       /\ ("c3", "b.md") = sample_uri (p_id selectedGist) name.
Proof.
  cbv zeta.
  assert (Hin : In ("c3", "b.md")
            (reads (trace (snd (pasteGistFile sample_label sample_description
               sample_uri string_of_list_byte sample_decode sample_extension
               python_arrays python_config
               [notes_py_gist; notes_txt_gist; two_file_gist] "plaintext"
               (Some (toPasteItem sample_label sample_description two_file_gist))
               (Some "b.md") sample_fs)))))
    by (vm_compute; auto).
  split; [exact Hin|].
  exact (pasteGistFile_reads_selected_gist _ _ _ _ _ _ _ _ _ _ _ _ _ _ Hin).
Defined.

Lemma pasteGistFile_inserts_what_it_read_witness :
  let run fs :=
    snd (pasteGistFile sample_label sample_description sample_uri
           string_of_list_byte sample_decode sample_extension
           python_arrays python_config
           [notes_py_gist; notes_txt_gist; two_file_gist] "plaintext"
           (Some (toPasteItem sample_label sample_description notes_txt_gist))
           None fs) in
  (In ("b2", "notes.txt") (reads (trace (run sample_fs)))
   /\ inserts (trace (run sample_fs)) = ["notes.txt"]
   /\ outcome (run sample_fs) = Done tt)
  /\ (In ("b2", "notes.txt") (reads (trace (run (fun _ => None))))
      /\ inserts (trace (run (fun _ => None))) = []
      /\ outcome (run (fun _ => None)) = Throw (Rejected "readFile")).
Proof.
  cbv zeta. split.
  - split; [vm_compute; auto|].
    apply (pasteGistFile_inserts_what_it_read sample_label sample_description
             sample_uri string_of_list_byte sample_decode sample_extension
             python_arrays python_config
             [notes_py_gist; notes_txt_gist; two_file_gist] "plaintext"
             (Some (toPasteItem sample_label sample_description notes_txt_gist))
             None sample_fs ("b2", "notes.txt")).
    vm_compute. auto.
  - split; [vm_compute; auto|].
    apply (pasteGistFile_inserts_what_it_read sample_label sample_description
             sample_uri string_of_list_byte sample_decode sample_extension
             python_arrays python_config
             [notes_py_gist; notes_txt_gist; two_file_gist] "plaintext"
             (Some (toPasteItem sample_label sample_description notes_txt_gist))
             None (fun _ => None) ("b2", "notes.txt")).
    vm_compute. auto.
Defined.

Lemma pasteGistFile_file_list_witness :
  let store := [notes_py_gist; two_file_gist] in
  let selected := toPasteItem sample_label sample_description two_file_gist in
  let run pickFile :=
    snd (pasteGistFile sample_label sample_description sample_uri
           string_of_list_byte sample_decode sample_extension
           python_arrays python_config store "plaintext" (Some selected) pickFile
           sample_fs) in
  (List.find (fun gist => String.eqb (gist_id gist) (p_id selected)) store
   = Some two_file_gist
   /\ length (gist_files two_file_gist) <> 1)
  /\ (forall pickFile, file_prompts (trace (run pickFile)) = [["a.md"; "b.md"]])
  /\ (forall name, name <> "" ->
        reads (trace (run (Some name))) = [("c3", name)])
  /\ reads (trace (run (Some ""))) = []
  /\ outcome (run (Some "")) = Done tt.
Proof.
  cbv zeta. split; [split; [reflexivity | cbn; lia]|].
  assert (Hshown : forall pickFile,
    gist_list_shown
      (snd (pasteGistFile sample_label sample_description sample_uri
              string_of_list_byte sample_decode sample_extension python_arrays
              python_config [notes_py_gist; two_file_gist] "plaintext"
              (Some (toPasteItem sample_label sample_description two_file_gist))
              pickFile sample_fs)))
    by (intros pickFile; unfold gist_list_shown; rewrite pasteGistFile_unfold;
        cbn; discriminate).
  destruct (pasteGistFile_file_list sample_label sample_description sample_uri
              string_of_list_byte sample_decode sample_extension python_arrays
              python_config [notes_py_gist; two_file_gist] "plaintext"
              (toPasteItem sample_label sample_description two_file_gist)
              two_file_gist sample_fs eq_refl)
    as [Hlist [Hread [Hempty Hdone]]]; [cbn; lia|].
  split; [intros pickFile; apply Hlist, Hshown|].
  split; [intros name Hname; apply (Hread name Hname), Hshown|].
  split; [exact Hempty | apply Hdone, Hshown].
Defined.

Lemma passesFilter_push_widens_witness :
  let gist := mkPasteItem "py" "" "d4" ["tool.py"] in
  passesFilter sample_extension python_arrays (Some 1%positive) gist = true
  /\ passesFilter sample_extension
       (push_underscored python_arrays (Some 1%positive)) (Some 1%positive) gist
     = true.
Proof.
  cbv zeta. split; [reflexivity|].
  apply (passesFilter_push_widens sample_extension python_arrays 1%positive).
  reflexivity.
Defined.

Lemma push_underscored_allows_witness :
  In ".py_" (push_underscored python_arrays (Some 1%positive) !!! 1%positive)
  /\ length (push_underscored python_arrays (Some 1%positive) !!! 1%positive) = 2
  /\ push_underscored python_arrays (Some 1%positive) !! 2%positive = None.
Proof.
  destruct (push_underscored_allows python_arrays 1%positive) as [Hin [Hlen Hother]].
  split; [|split].
  - apply Hin. right. exists ".py". split; [left|]; reflexivity.
  - exact Hlen.
  - rewrite Hother; [reflexivity | discriminate].
Defined.

Lemma addSelectionToGist_without_name_witness :
  truthy (Some "") = None
  /\ addSelectionToGist sample_label sample_description sample_uri
       list_byte_of_string [two_file_gist] (Some "") "selected text"
       (Accepted [gistToItem sample_label sample_description two_file_gist]) None
     = ([EInputBox "Enter a name to give to this file"], Done tt).
Proof.
  split; [reflexivity|].
  apply (addSelectionToGist_without_name sample_label sample_description
           sample_uri list_byte_of_string). reflexivity.
Defined.

Lemma addSelectionToGist_single_file_witness :
  let run user := addSelectionToGist sample_label sample_description sample_uri
                    list_byte_of_string [two_file_gist] (Some "snippet.py")
                    "print(1)" user (Some "d") in
  let existing := gistToItem sample_label sample_description two_file_gist in
  let public := mkItem CREATE_PUBLIC_GIST_ITEM None None (Some true) in
  "snippet.py" <> ""
  /\ (writes (trace (run (Accepted [existing])))
      = [(("c3", "snippet.py"), list_byte_of_string "print(1)")]
      /\ creates (trace (run (Accepted [existing]))) = []
      /\ input_boxes (trace (run (Accepted [existing])))
         = ["Enter a name to give to this file"])
  /\ (creates (trace (run (Accepted [public])))
      = [([mkGistFile "snippet.py" "print(1)"], true, Some "d", false)]
      /\ writes (trace (run (Accepted [public]))) = []
      /\ input_boxes (trace (run (Accepted [public])))
         = ["Enter a name to give to this file";
            "Enter an optional description for the new Gist"]).
Proof.
  cbv zeta.
  assert (Hname : "snippet.py" <> "") by discriminate.
  split; [exact Hname|].
  pose proof (addSelectionToGist_single_file sample_label sample_description
                sample_uri list_byte_of_string [two_file_gist] "snippet.py"
                "print(1)" (Some "d") Hname) as [Hwrite Hcreate].
  split.
  - apply (Hwrite (gistToItem sample_label sample_description two_file_gist)
             [] "c3"); [reflexivity | discriminate].
  - apply (Hcreate (mkItem CREATE_PUBLIC_GIST_ITEM None None (Some true)) []).
    reflexivity.
Defined.

Lemma addFileToGist_batch_witness :
  let tree := GistFileNode "c3" (mkGistFile "a.md" "stale") in
  let explorer := UriNode ("", "/home/u/b.txt") in
  let bytesOf node :=
    list_byte_of_string (snd (nodeUri sample_uri node)) in
  (forall node, In node [tree; explorer] ->
     sample_fs (nodeUri sample_uri node) = Some (bytesOf node))
  /\ addFileToGist sample_label sample_description sample_uri
       list_byte_of_string string_of_list_byte sample_path sample_basename
       [two_file_gist] tree (MultiSelect [tree; explorer]) sample_fs Dismissed None
     = ([EReadFile ("c3", "a.md"); EReadFile ("", "/home/u/b.txt");
         EListShow "Specify the gist you'd like to add the file(s) to"
           (CREATE_GIST_ITEMS
              ++ [gistToItem sample_label sample_description two_file_gist])],
        Done tt).
Proof.
  cbv zeta.
  assert (Hfs : forall node : Node,
             In node (selectNodes (GistFileNode "c3" (mkGistFile "a.md" "stale"))
                        (MultiSelect [GistFileNode "c3" (mkGistFile "a.md" "stale");
                                      UriNode ("", "/home/u/b.txt")])) ->
             sample_fs (nodeUri sample_uri node)
             = Some (list_byte_of_string (snd (nodeUri sample_uri node))))
    by (intros node _; reflexivity).
  split; [exact Hfs|].
  rewrite (addFileToGist_batch sample_label sample_description sample_uri
             list_byte_of_string string_of_list_byte sample_path sample_basename
             [two_file_gist] _ _ sample_fs
             (fun node => list_byte_of_string (snd (nodeUri sample_uri node)))
             Dismissed None Hfs).
  reflexivity.
Defined.

Lemma addFileToGist_existing_gist_witness :
  let tree := GistFileNode "b2" (mkGistFile "notes.txt" "stale") in
  let explorer := UriNode ("", "/home/u/b.txt") in
  let bytesOf node :=
    list_byte_of_string (snd (nodeUri sample_uri node)) in
  let t := trace (addFileToGist sample_label sample_description sample_uri
                    list_byte_of_string string_of_list_byte sample_path
                    sample_basename [two_file_gist] tree
                    (MultiSelect [tree; explorer]) sample_fs
                    (Accepted [gistToItem sample_label sample_description
                                 two_file_gist]) None) in
  ((forall node, In node [tree; explorer] ->
      sample_fs (nodeUri sample_uri node) = Some (bytesOf node))
   /\ "c3" <> "")
  /\ reads t = [("b2", "notes.txt"); ("", "/home/u/b.txt")]
  /\ writes t = [(("c3", "notes.txt"), list_byte_of_string "notes.txt");
                 (("c3", "b.txt"), list_byte_of_string "/home/u/b.txt")]
  /\ creates t = [].
Proof.
  cbv zeta.
  assert (Hfs : forall node : Node,
             In node (selectNodes (GistFileNode "b2" (mkGistFile "notes.txt" "stale"))
                        (MultiSelect [GistFileNode "b2" (mkGistFile "notes.txt" "stale");
                                      UriNode ("", "/home/u/b.txt")])) ->
             sample_fs (nodeUri sample_uri node)
             = Some (list_byte_of_string (snd (nodeUri sample_uri node))))
    by (intros node _; reflexivity).
  assert (Hid : "c3" <> "") by discriminate.
  split; [split; [exact Hfs | exact Hid]|].
  exact (addFileToGist_existing_gist sample_label sample_description sample_uri
           list_byte_of_string string_of_list_byte sample_path sample_basename
           [two_file_gist] _ _ sample_fs
           (fun node => list_byte_of_string (snd (nodeUri sample_uri node)))
           (gistToItem sample_label sample_description two_file_gist) [] None
           "c3" Hfs eq_refl Hid).
Defined.

Lemma addFileToGist_unreadable_node_witness :
  let keep := UriNode ("", "/x/keep.txt") in
  let gone := UriNode ("", "gone.txt") in
  let never := UriNode ("", "/x/never.txt") in
  let run := addFileToGist sample_label sample_description sample_uri
               list_byte_of_string string_of_list_byte sample_path
               sample_basename [two_file_gist] keep
               (MultiSelect [keep; gone; never]) sample_fs_missing
               (Accepted [gistToItem sample_label sample_description two_file_gist])
               None in
  sample_fs_missing ("", "gone.txt") = None
  /\ outcome run = Throw (Rejected "readFile")
  /\ reads (trace run) = [("", "/x/keep.txt"); ("", "gone.txt")]
  /\ list_shows (trace run) = []
  /\ creates (trace run) = []
  /\ writes (trace run) = [].
Proof.
  cbv zeta. split; [reflexivity|].
  apply (addFileToGist_unreadable_node sample_label sample_description sample_uri
           list_byte_of_string string_of_list_byte sample_path sample_basename
           [two_file_gist] (UriNode ("", "/x/keep.txt"))
           (MultiSelect [UriNode ("", "/x/keep.txt"); UriNode ("", "gone.txt");
                         UriNode ("", "/x/never.txt")])
           sample_fs_missing
           (fun node => list_byte_of_string (snd (nodeUri sample_uri node)))
           [UriNode ("", "/x/keep.txt")] (UriNode ("", "gone.txt"))
           [UriNode ("", "/x/never.txt")]).
  - reflexivity.
  - intros node [<-|[]]. reflexivity.
  - reflexivity.
Defined.

Lemma addFileToGist_empty_selection_witness :
  let run user := addFileToGist sample_label sample_description sample_uri
                    list_byte_of_string string_of_list_byte sample_path
                    sample_basename [two_file_gist]
                    (UriNode ("", "/x/keep.txt")) (MultiSelect []) sample_fs
                    user (Some "d") in
  creates (trace (run (Accepted [mkItem CREATE_SECRET_GIST_ITEM None None (Some true)])))
  = [([], false, Some "d", false)]
  /\ writes (trace (run (Accepted [gistToItem sample_label sample_description
                                     two_file_gist]))) = []
  /\ progresses (trace (run (Accepted [gistToItem sample_label sample_description
                                         two_file_gist])))
     = ["Adding file(s)..."].
Proof.
  cbv zeta. split.
  - apply (proj1 (proj2 (addFileToGist_empty_selection sample_label
             sample_description sample_uri list_byte_of_string string_of_list_byte
             sample_path sample_basename [two_file_gist]
             (UriNode ("", "/x/keep.txt")) sample_fs (Some "d")
             (mkItem CREATE_SECRET_GIST_ITEM None None (Some true)) []))).
    reflexivity.
  - apply (proj2 (proj2 (addFileToGist_empty_selection sample_label
             sample_description sample_uri list_byte_of_string string_of_list_byte
             sample_path sample_basename [two_file_gist]
             (UriNode ("", "/x/keep.txt")) sample_fs (Some "d")
             (gistToItem sample_label sample_description two_file_gist) []))).
    discriminate.
Defined.

Lemma promptForGistSelection_offered_item_witness :
  let item := gistToItem sample_label sample_description two_file_gist in
  let t := trace (promptForGistSelection sample_label sample_description sample_uri
                    list_byte_of_string [notes_txt_gist; two_file_gist]
                    sample_files (Accepted [item]) None) in
  In item (unshift (map (gistToItem sample_label sample_description)
                        [notes_txt_gist; two_file_gist]) CREATE_GIST_ITEMS)
  /\ ((item = mkItem CREATE_PUBLIC_GIST_ITEM None None (Some true)
       /\ creates t = [(sample_files, true, None, false)] /\ writes t = [])
      \/ (item = mkItem CREATE_SECRET_GIST_ITEM None None (Some true)
          /\ creates t = [(sample_files, false, None, false)] /\ writes t = [])
      \/ (exists gist,
             In gist [notes_txt_gist; two_file_gist]
             /\ item = gistToItem sample_label sample_description gist
             /\ (gist_id gist <> "" ->
                 writes t
                 = map (fun file => (sample_uri (gist_id gist) (filename file),
                                     list_byte_of_string (content file)))
                       sample_files
                 /\ creates t = []))).
Proof.
  cbv zeta.
  assert (Hin : In (gistToItem sample_label sample_description two_file_gist)
                   (unshift (map (gistToItem sample_label sample_description)
                                 [notes_txt_gist; two_file_gist]) CREATE_GIST_ITEMS))
    by (cbn; auto).
  split; [exact Hin|].
  exact (promptForGistSelection_offered_item sample_label sample_description
           sample_uri list_byte_of_string [notes_txt_gist; two_file_gist]
           sample_files _ [] None Hin).
Defined.



Lemma pasteGistFile_shown_items_from_store_witness :
  let store := [notes_py_gist; notes_txt_gist; two_file_gist] in
  let item := toPasteItem sample_label sample_description notes_py_gist in
  In [item]
     (gist_prompts
        (trace (snd (pasteGistFile sample_label sample_description sample_uri
                       string_of_list_byte sample_decode sample_extension
                       python_arrays python_config store "python" None None
                       sample_fs))))
  /\ In item (map (toPasteItem sample_label sample_description) store).
Proof.
  cbv zeta.
  assert (Hshown :
    In [toPasteItem sample_label sample_description notes_py_gist]
       (gist_prompts
          (trace (snd (pasteGistFile sample_label sample_description sample_uri
                         string_of_list_byte sample_decode sample_extension
                         python_arrays python_config
                         [notes_py_gist; notes_txt_gist; two_file_gist] "python"
                         None None sample_fs)))))
    by (vm_compute; auto).
  split; [exact Hshown|].
  apply (pasteGistFile_shown_items_from_store sample_label sample_description
           sample_uri string_of_list_byte sample_decode sample_extension
           python_arrays python_config _ "python" None None sample_fs _ _ Hshown).
  left. reflexivity.
Defined.
